(** * LM77 temperature sensor driver (lm77.h, lm77.c): shallow embedding

    C integers are modelled as [Z] with the conversions written out:
    [to_u16], [to_u8] and [to_int] are the casts to [u16], [u8] and the
    32-bit [int]; bit operations are [Z.land], [Z.lor], [Z.shiftl] and
    [Z.shiftr] (two's complement on negative numbers, as gcc computes
    them). *)

From Stdlib Require Import ZArith List Bool String Lia.
Import ListNotations.
Open Scope Z_scope.

(** ** Machine integers *)

Definition to_u16 (x : Z) : Z := x mod 65536.
Definition to_u8 (x : Z) : Z := x mod 256.

(** Conversion to the 32-bit signed [int]. *)
Definition to_int (x : Z) : Z := (x + 2147483648) mod 4294967296 - 2147483648.

(** [swab16] of <linux/byteorder/swab.h>: exchange the two bytes of the
    [__u16] the argument converts to. *)
Definition swab16 (x : Z) : Z :=
  let x := to_u16 x in
  Z.lor (Z.shiftl (Z.land x 255) 8) (Z.shiftr (Z.land x 65280) 8).

(** A boolean test over the integers [lo, lo + n). *)
Fixpoint Z_range_forallb (p : Z -> bool) (lo : Z) (n : nat) : bool :=
  match n with
  | O => true
  | S m => p lo && Z_range_forallb p (lo + 1) m
  end.

(** ** lm77.h: the register codec *)

Module Codec.

Definition LM77_TEMP_MIN : Z := -55000.
Definition LM77_TEMP_MAX : Z := 125000.
Definition LM77_TEMP_MASK : Z := 8184.  (* 0x1ff8 *)

(** [SENSORS_LIMIT] of <linux/i2c-proc.h>, used by [LM77_TEMP_TO_REG]. *)
Definition SENSORS_LIMIT (x low high : Z) : Z :=
  if x <? low then low else if x >? high then high else x.

(** [static inline u16 LM77_TEMP_TO_REG(int temp)] *)
Definition LM77_TEMP_TO_REG (temp : Z) : Z :=
  let ntemp := SENSORS_LIMIT temp LM77_TEMP_MIN LM77_TEMP_MAX in
  let ntemp := to_int (Z.shiftl (Z.quot ntemp 500) 3) in
  (* set all sign bits if necessary *)
  let ntemp := if Z.land ntemp 512 =? 0 then ntemp
               else to_int (Z.lor ntemp 57344) in
  to_u16 ntemp.

(** [static inline int LM77_TEMP_FROM_REG(u16 reg)] *)
Definition LM77_TEMP_FROM_REG (reg : Z) : Z :=
  let reg := to_u16 reg in
  let val := Z.shiftr (Z.land reg LM77_TEMP_MASK) 3 in
  (* adjust for signednes if necessary *)
  let val := if Z.land val 512 =? 0 then val else to_int (val - 1024) in
  to_int (val * 500).

End Codec.
Import Codec.

(** ** The SMBus adapter and the kernel services the driver calls *)

(** One transfer on the two-wire bus, as the adapter sees it. *)
Inductive bus_op : Type :=
| ReadByte (reg : Z)
| ReadWord (reg : Z)
| WriteByte (reg value : Z)
| WriteWord (reg value : Z).

Definition is_write (op : bus_op) : bool :=
  match op with
  | WriteByte _ _ | WriteWord _ _ => true
  | ReadByte _ | ReadWord _ => false
  end.

(** Calls into the i2c core and the allocator made by [lm77_detect]. *)
Inductive core_call : Type :=
| Kmalloc
| Kfree
| AttachClient
| DetachClient
| RegisterEntry.

(** Whatever answers at the probed address.  A transfer either yields a
    value or fails ([None], [false]); the chip may change state on every
    transfer (the LM77 latches the last value read). *)
Class SMBus (chip : Type) : Type := {
  xfer_read_byte : chip -> Z -> option Z * chip;
  xfer_read_word : chip -> Z -> option Z * chip;
  xfer_write_byte : chip -> Z -> Z -> bool * chip;
  xfer_write_word : chip -> Z -> Z -> bool * chip
}.

(** Build-time constants of the host kernel: the tick rate [HZ] and the
    width of [unsigned long], the type of [jiffies]. *)
Class KernelConfig : Type := {
  HZ : Z;
  BITS_PER_LONG : Z
}.

Definition to_ulong `{KernelConfig} (x : Z) : Z := x mod 2 ^ BITS_PER_LONG.

Record kernel (chip : Type) : Type := mk_kernel {
  hw : chip;                    (* the device behind the client address *)
  trace : list bus_op;          (* transfers issued so far, oldest first *)
  calls : list core_call;       (* i2c core and allocator calls so far *)
  dmesg : list string           (* printk output, oldest first *)
}.
Arguments mk_kernel {chip}.
Arguments hw {chip}.
Arguments trace {chip}.
Arguments calls {chip}.
Arguments dmesg {chip}.

(** Kernel code as state passing over [kernel]. *)
Definition K (chip A : Type) : Type := kernel chip -> A * kernel chip.

Definition ret {chip A} (a : A) : K chip A := fun k => (a, k).

Definition bind {chip A B} (m : K chip A) (f : A -> K chip B) : K chip B :=
  fun k => let (a, k') := m k in f a k'.

Declare Scope kernel_scope.
Delimit Scope kernel_scope with kernel.
Notation "x <- m ;; f" := (bind m (fun x => f))
  (at level 100, m at next level, right associativity) : kernel_scope.
Notation "m ;;; f" := (bind m (fun _ => f))
  (at level 100, right associativity) : kernel_scope.
Open Scope kernel_scope.

(** [a || b] on two effectful operands: [b] runs only when [a] is false. *)
Definition orK {chip} (a b : K chip bool) : K chip bool :=
  x <- a ;; if x then ret true else b.

Definition printk {chip} (msg : string) : K chip unit :=
  fun k => (tt, mk_kernel (hw k) (trace k) (calls k) (dmesg k ++ [msg])).

Definition core {chip} (c : core_call) : K chip unit :=
  fun k => (tt, mk_kernel (hw k) (trace k) (calls k ++ [c]) (dmesg k)).

Section Smbus.
Context {chip : Type} `{SMBus chip}.

(** The [i2c_smbus_*] entry points return [-1] when the transfer fails;
    the register number is a [u8]. *)
Definition i2c_smbus_read_byte_data (reg : Z) : K chip Z :=
  fun k =>
    let reg := to_u8 reg in
    let (r, c) := xfer_read_byte (hw k) reg in
    (match r with Some v => to_u8 v | None => -1 end,
     mk_kernel c (trace k ++ [ReadByte reg]) (calls k) (dmesg k)).

Definition i2c_smbus_read_word_data (reg : Z) : K chip Z :=
  fun k =>
    let reg := to_u8 reg in
    let (r, c) := xfer_read_word (hw k) reg in
    (match r with Some v => to_u16 v | None => -1 end,
     mk_kernel c (trace k ++ [ReadWord reg]) (calls k) (dmesg k)).

Definition i2c_smbus_write_byte_data (reg value : Z) : K chip Z :=
  fun k =>
    let reg := to_u8 reg in
    let value := to_u8 value in
    let (ok, c) := xfer_write_byte (hw k) reg value in
    (if ok then 0 else -1,
     mk_kernel c (trace k ++ [WriteByte reg value]) (calls k) (dmesg k)).

Definition i2c_smbus_write_word_data (reg value : Z) : K chip Z :=
  fun k =>
    let reg := to_u8 reg in
    let value := to_u16 value in
    let (ok, c) := xfer_write_word (hw k) reg value in
    (if ok then 0 else -1,
     mk_kernel c (trace k ++ [WriteWord reg value]) (calls k) (dmesg k)).

End Smbus.

(** ** lm77.c: registers, constants and the per-client data *)

Definition LM77_REG_TEMP : Z := 0.
Definition LM77_REG_CONF : Z := 1.
Definition LM77_REG_T_HYST : Z := 2.
Definition LM77_REG_T_CRIT : Z := 3.
Definition LM77_REG_T_LOW : Z := 4.
Definition LM77_REG_T_HIGH : Z := 5.

Definition LM77_CONF_SHUTDOWN : Z := 1.
Definition LM77_CONF_INTMODE : Z := 2.
Definition LM77_CONF_TCRITPOL : Z := 4.
Definition LM77_CONF_INTPOL : Z := 8.
Definition LM77_CONF_FAULTQ : Z := 16.

Definition LM77_SC_NOTSET : Z := -99999.
Definition LM77_ALARM_MASK : Z := 7.

Definition LM77_SYSCTL_TEMP : Z := 1200.
Definition LM77_SYSCTL_TEMP_CRIT : Z := 1201.
Definition LM77_SYSCTL_TEMP_HYST : Z := 1202.
Definition LM77_SYSCTL_ALARMS : Z := 1203.

(** From <linux/i2c-proc.h> and <linux/errno.h>. *)
Definition SENSORS_PROC_REAL_INFO : Z := 1.
Definition SENSORS_PROC_REAL_READ : Z := 2.
Definition SENSORS_PROC_REAL_WRITE : Z := 3.
Definition ENOMEM : Z := 12.

(** [enum chips { any_chip, lm77 }], declared by [SENSORS_INSMOD_1(lm77)]. *)
Definition lm77 : Z := 1.

(** [struct lm77_data]; the embedded [i2c_client] is reduced to its
    address, and [update_lock] is left out (calls are run one at a time). *)
Record lm77_data : Type := mk_lm77_data {
  addr : Z;
  sysctl_id : Z;
  valid : Z;
  last_updated : Z;            (* in jiffies *)
  temp_input : Z;
  temp_crit : Z;
  temp_min : Z;
  temp_max : Z;
  temp_hyst : Z;
  alarms : Z
}.

Definition set_sysctl_id (v : Z) (d : lm77_data) : lm77_data :=
  mk_lm77_data (addr d) v (valid d) (last_updated d) (temp_input d)
    (temp_crit d) (temp_min d) (temp_max d) (temp_hyst d) (alarms d).
Definition set_valid (v : Z) (d : lm77_data) : lm77_data :=
  mk_lm77_data (addr d) (sysctl_id d) v (last_updated d) (temp_input d)
    (temp_crit d) (temp_min d) (temp_max d) (temp_hyst d) (alarms d).
Definition set_last_updated (v : Z) (d : lm77_data) : lm77_data :=
  mk_lm77_data (addr d) (sysctl_id d) (valid d) v (temp_input d)
    (temp_crit d) (temp_min d) (temp_max d) (temp_hyst d) (alarms d).
Definition set_temp_input (v : Z) (d : lm77_data) : lm77_data :=
  mk_lm77_data (addr d) (sysctl_id d) (valid d) (last_updated d) v
    (temp_crit d) (temp_min d) (temp_max d) (temp_hyst d) (alarms d).
Definition set_temp_crit (v : Z) (d : lm77_data) : lm77_data :=
  mk_lm77_data (addr d) (sysctl_id d) (valid d) (last_updated d)
    (temp_input d) v (temp_min d) (temp_max d) (temp_hyst d) (alarms d).
Definition set_temp_min (v : Z) (d : lm77_data) : lm77_data :=
  mk_lm77_data (addr d) (sysctl_id d) (valid d) (last_updated d)
    (temp_input d) (temp_crit d) v (temp_max d) (temp_hyst d) (alarms d).
Definition set_temp_max (v : Z) (d : lm77_data) : lm77_data :=
  mk_lm77_data (addr d) (sysctl_id d) (valid d) (last_updated d)
    (temp_input d) (temp_crit d) (temp_min d) v (temp_hyst d) (alarms d).
Definition set_temp_hyst (v : Z) (d : lm77_data) : lm77_data :=
  mk_lm77_data (addr d) (sysctl_id d) (valid d) (last_updated d)
    (temp_input d) (temp_crit d) (temp_min d) (temp_max d) v (alarms d).
Definition set_alarms (v : Z) (d : lm77_data) : lm77_data :=
  mk_lm77_data (addr d) (sysctl_id d) (valid d) (last_updated d)
    (temp_input d) (temp_crit d) (temp_min d) (temp_max d) (temp_hyst d) v.

(** C arrays: [array_get a i oob] reads [a[i]], and yields [oob], the
    content of the memory past the array, when [i] is out of bounds;
    [array_set a i v] is [a[i] = v] in a buffer large enough for it. *)
Definition array_get (a : list Z) (i : nat) (oob : Z) : Z := nth i a oob.

Fixpoint array_set (a : list Z) (i : nat) (v : Z) : list Z :=
  match i, a with
  | O, [] => [v]
  | O, _ :: t => v :: t
  | S j, [] => 0 :: array_set [] j v
  | S j, x :: t => x :: array_set t j v
  end.

(** The messages of [lm77_proc_temp]. *)
Definition msg_low : string := "lm77: error: temp_min out of bounds".
Definition msg_high : string := "lm77: error: temp_max out of bounds".
Definition msg_order : string := "lm77: error; temp_min > temp_max".
Definition msg_margin : string := "lm77: error: overlapping setpoints".
Definition msg_applied : string := "lm77: changes applied.".
Definition msg_rejected : string := "lm77: changes not applied.".

(** ** lm77.c: bus access *)

Section Driver.
Context {chip : Type} `{SMBus chip} `{KernelConfig}.

(** All registers are word-sized, except for the configuration register;
    words travel high byte first. *)
Definition lm77_read_value (reg : Z) : K chip Z :=
  if to_u8 reg =? LM77_REG_CONF then i2c_smbus_read_byte_data reg
  else (w <- i2c_smbus_read_word_data reg ;; ret (swab16 w)).

Definition lm77_write_value (reg value : Z) : K chip Z :=
  if to_u8 reg =? LM77_REG_CONF then i2c_smbus_write_byte_data reg (to_u16 value)
  else i2c_smbus_write_word_data reg (swab16 (to_u16 value)).

(** ** lm77.c: the read-through cache *)

(** The condition guarding the re-read in [lm77_update_client]. *)
Definition update_due (jiffies : Z) (data : lm77_data) : bool :=
  (to_ulong (jiffies - last_updated data) >? to_ulong (HZ + Z.quot HZ 2))
  || (jiffies <? last_updated data)
  || (valid data =? 0).

(** [static void lm77_update_client(struct i2c_client *client)]; [jiffies]
    is the tick counter at the time of the call. *)
Definition lm77_update_client (jiffies : Z) (data : lm77_data)
  : K chip lm77_data :=
  if update_due jiffies data then
    v <- lm77_read_value LM77_REG_TEMP ;;
    let data := set_temp_input (LM77_TEMP_FROM_REG v) data in
    v <- lm77_read_value LM77_REG_T_HYST ;;
    let data := set_temp_hyst (LM77_TEMP_FROM_REG v) data in
    v <- lm77_read_value LM77_REG_T_CRIT ;;
    let data := set_temp_crit (LM77_TEMP_FROM_REG v) data in
    v <- lm77_read_value LM77_REG_T_LOW ;;
    let data := set_temp_min (LM77_TEMP_FROM_REG v) data in
    v <- lm77_read_value LM77_REG_T_HIGH ;;
    let data := set_temp_max (LM77_TEMP_FROM_REG v) data in
    v <- lm77_read_value LM77_REG_TEMP ;;
    let data := set_alarms (to_u8 (Z.land v LM77_ALARM_MASK)) data in
    let data := set_last_updated jiffies data in
    let data := set_valid 1 data in
    ret data
  else ret data.

(** ** lm77.c: the sysctl handlers *)

(** The user's values, [new[4]], for a write to [ctl_name]; [results]
    holds at least [nrels_mag] values. *)
Definition user_values (ctl_name nrels_mag : Z) (results : list Z) : list Z :=
  let new := [LM77_SC_NOTSET; LM77_SC_NOTSET; LM77_SC_NOTSET; LM77_SC_NOTSET] in
  if ctl_name =? LM77_SYSCTL_TEMP then
    let new := if nrels_mag >=? 1
               then array_set new 0 (to_int (array_get results 0 0)) else new in
    let new := if nrels_mag >=? 2
               then array_set new 1 (to_int (array_get results 1 0)) else new in
    new
  else if ctl_name =? LM77_SYSCTL_TEMP_CRIT then
    if nrels_mag >=? 1
    then array_set new 2 (to_int (array_get results 0 0)) else new
  else if ctl_name =? LM77_SYSCTL_TEMP_HYST then
    if nrels_mag >=? 1
    then array_set new 3 (to_int (array_get results 0 0)) else new
  else new.

(** [check[4]]: current values where the user did not specify something
    else.  check[0] = temp_min, check[1] = temp_max, check[2] = temp_crit,
    check[3] = temp_hyst. *)
Definition populate_check (data : lm77_data) (new : list Z) : list Z :=
  let pick i cur :=
    if array_get new i 0 =? LM77_SC_NOTSET then cur else array_get new i 0 in
  [pick 0%nat (temp_min data); pick 1%nat (temp_max data);
   pick 2%nat (temp_crit data); pick 3%nat (temp_hyst data)].

(** The four checks.  The fourth reads [check[4]], one element past the
    end of [check]; [stack_slot] is what the stack holds there. *)
Definition sanity_checks (stack_slot : Z) (check : list Z) : K chip Z :=
  let passed := 1 in
  passed <-
    (if (array_get check 0 stack_slot <? LM77_TEMP_MIN)
        || (array_get check 0 stack_slot >? LM77_TEMP_MAX)
     then printk msg_low ;;; ret 0
     else ret passed) ;;
  passed <-
    (if (array_get check 1 stack_slot <? LM77_TEMP_MIN)
        || (array_get check 1 stack_slot >? LM77_TEMP_MAX)
     then printk msg_high ;;; ret 0
     else ret passed) ;;
  passed <-
    (if array_get check 0 stack_slot >=? array_get check 1 stack_slot
     then printk msg_order ;;; ret 0
     else ret passed) ;;
  passed <-
    (if to_int (array_get check 0 stack_slot + array_get check 4 stack_slot)
        >=? to_int (array_get check 1 stack_slot - array_get check 4 stack_slot)
     then printk msg_margin ;;; ret 0
     else ret passed) ;;
  ret passed.

(** The body of [if (passed)]: the writes for the values the user gave. *)
Definition apply_changes (data : lm77_data) (new : list Z) : K chip lm77_data :=
  data <-
    (if negb (array_get new 0 0 =? LM77_SC_NOTSET) then
       let data := set_temp_min (array_get new 0 0) data in
       lm77_write_value LM77_REG_T_LOW (LM77_TEMP_TO_REG (array_get new 0 0)) ;;;
       ret data
     else ret data) ;;
  data <-
    (if negb (array_get new 1 0 =? LM77_SC_NOTSET) then
       let data := set_temp_max (array_get new 1 0) data in
       lm77_write_value LM77_REG_T_HIGH (LM77_TEMP_TO_REG (array_get new 1 0)) ;;;
       ret data
     else ret data) ;;
  data <-
    (if negb (array_get new 2 0 =? LM77_SC_NOTSET) then
       let data := set_temp_crit (array_get new 2 0) data in
       lm77_write_value LM77_REG_T_CRIT (LM77_TEMP_TO_REG (array_get new 2 0)) ;;;
       ret data
     else ret data) ;;
  data <-
    (if negb (array_get new 3 0 =? LM77_SC_NOTSET) then
       let data := set_temp_max (array_get new 3 0) data in
       lm77_write_value LM77_REG_T_HYST (LM77_TEMP_TO_REG (array_get new 3 0)) ;;;
       ret data
     else ret data) ;;
  printk msg_applied ;;;
  ret data.

(** [void lm77_proc_temp(client, operation, ctl_name, nrels_mag, results)];
    the result is the client data, [*nrels_mag] and [results] on return. *)
Definition lm77_proc_temp (jiffies stack_slot : Z) (data : lm77_data)
    (operation ctl_name nrels_mag : Z) (results : list Z)
  : K chip (lm77_data * Z * list Z) :=
  if operation =? SENSORS_PROC_REAL_INFO then ret (data, 1, results)
  else if operation =? SENSORS_PROC_REAL_READ then
    data <- lm77_update_client jiffies data ;;
    if ctl_name =? LM77_SYSCTL_TEMP then
      let results := array_set results 0 (temp_min data) in
      let results := array_set results 1 (temp_max data) in
      let results := array_set results 2 (temp_input data) in
      ret (data, 3, results)
    else if ctl_name =? LM77_SYSCTL_TEMP_CRIT then
      ret (data, 1, array_set results 0 (temp_crit data))
    else if ctl_name =? LM77_SYSCTL_TEMP_HYST then
      ret (data, 1, array_set results 0 (temp_hyst data))
    else ret (data, nrels_mag, results)
  else if operation =? SENSORS_PROC_REAL_WRITE then
    let new := user_values ctl_name nrels_mag results in
    let check := populate_check data new in
    passed <- sanity_checks stack_slot check ;;
    (* apply changes only if checks pass *)
    if negb (passed =? 0) then
      data <- apply_changes data new ;;
      ret (data, nrels_mag, results)
    else
      printk msg_rejected ;;;
      ret (data, nrels_mag, results)
  else ret (data, nrels_mag, results).

(** [void lm77_proc_alarms(client, operation, ctl_name, nrels_mag, results)] *)
Definition lm77_proc_alarms (jiffies : Z) (data : lm77_data)
    (operation ctl_name nrels_mag : Z) (results : list Z)
  : K chip (lm77_data * Z * list Z) :=
  if operation =? SENSORS_PROC_REAL_INFO then ret (data, 0, results)
  else if operation =? SENSORS_PROC_REAL_READ then
    data <- lm77_update_client jiffies data ;;
    ret (data, 1, array_set results 0 (alarms data))
  else if operation =? SENSORS_PROC_REAL_WRITE then
    printk "lm77: alarms: read-only" ;;;
    ret (data, 0, results)
  else ret (data, nrels_mag, results).

(** ** lm77.c: attaching a client *)

(** [static void lm77_init_client(struct i2c_client *client)];
    [LM77_FAULT_QUEUE] is not defined. *)
Definition lm77_init_client : K chip unit :=
  (* Initialize the LM77 chip - turn off shutdown mode *)
  conf <- lm77_read_value LM77_REG_CONF ;;
  let conf := to_u16 conf in
  let new := 0 in
  (if negb (Z.land conf LM77_CONF_SHUTDOWN =? 0)
   then printk "lm77: waking up bus" else ret tt) ;;;
  lm77_write_value LM77_REG_CONF new ;;;
  ret tt.

(** What [lm77_detect] gets from the adapter and the i2c core: the answers
    of [i2c_is_isa_adapter] and [i2c_check_functionality], whether
    [kmalloc] succeeds, and the values returned by [i2c_attach_client] and
    [i2c_register_entry]. *)
Record host : Type := mk_host {
  i2c_is_isa_adapter : bool;
  i2c_check_functionality : bool;
  kmalloc_succeeds : bool;
  i2c_attach_client : Z;
  i2c_register_entry : Z
}.

(** The values of [i] in [for (i = 8; i <= 0xff; i += 8)]. *)
Definition scan_offsets : list Z :=
  map (fun n => 8 * Z.of_nat n) (seq 1 31).

(** The condition of the [if] in the loop body, at offset [i]. *)
Definition alias_mismatch (i conf hyst crit min max : Z) : K chip bool :=
  orK (r <- i2c_smbus_read_byte_data (i + 1) ;; ret (negb (r =? conf)))
 (orK (r <- i2c_smbus_read_word_data (i + 2) ;; ret (negb (r =? hyst)))
 (orK (r <- i2c_smbus_read_word_data (i + 3) ;; ret (negb (r =? crit)))
 (orK (r <- i2c_smbus_read_word_data (i + 4) ;; ret (negb (r =? min)))
      (r <- i2c_smbus_read_word_data (i + 5) ;; ret (negb (r =? max)))))).

(** The loop; [true] stands for [goto error1]. *)
Fixpoint alias_scan (offsets : list Z) (conf hyst crit min max : Z)
  : K chip bool :=
  match offsets with
  | [] => ret false
  | i :: rest =>
      bad <- alias_mismatch i conf hyst crit min max ;;
      if bad then ret true else alias_scan rest conf hyst crit min max
  end.

(** [(x & 0x00f0) != 0xf0 && (x & 0x00f0) != 0x0] *)
Definition sign_bits_bad (x : Z) : bool :=
  negb (Z.land x 240 =? 240) && negb (Z.land x 240 =? 0).

(** [0x06 and 0x07 return last read value]: one read of register 0 and
    the comparison of registers 6 and 7 with it. *)
Definition shadow_mismatch : K chip bool :=
  cur <- i2c_smbus_read_word_data 0 ;;
  orK (r <- i2c_smbus_read_word_data 6 ;; ret (negb (r =? cur)))
      (r <- i2c_smbus_read_word_data 7 ;; ret (negb (r =? cur))).

(** The first reads of the block under [if (kind < 0)]:
    [cur], [conf], [hyst], [crit], [min] and [max]. *)
Definition probe_reads : K chip (Z * Z * Z * Z * Z * Z) :=
  cur <- i2c_smbus_read_word_data 0 ;;
  conf <- i2c_smbus_read_byte_data 1 ;;
  hyst <- i2c_smbus_read_word_data 2 ;;
  crit <- i2c_smbus_read_word_data 3 ;;
  min <- i2c_smbus_read_word_data 4 ;;
  max <- i2c_smbus_read_word_data 5 ;;
  ret (cur, conf, hyst, crit, min, max).

(** The block under [if (kind < 0)]; [true] stands for [goto error1]. *)
Definition remaining_detection : K chip bool :=
  r <- probe_reads ;;
  let '(cur, conf, hyst, crit, min, max) := r in
  bad <- alias_scan scan_offsets conf hyst crit min max ;;
  if bad then ret true
  else if sign_bits_bad cur || sign_bits_bad hyst || sign_bits_bad crit
          || sign_bits_bad min || sign_bits_bad max then ret true
  else if negb (Z.land conf 224 =? 0) then ret true
  else
    bad <- shadow_mismatch ;;
    if bad then ret true else
    bad <- shadow_mismatch ;;
    if bad then ret true else
    bad <- shadow_mismatch ;;
    if bad then ret true else
    ret false.

(** [int lm77_detect(adapter, address, flags, kind)].  The result is the
    value returned and the client left attached, if any. *)
Definition lm77_detect (env : host) (address kind : Z)
  : K chip (Z * option lm77_data) :=
  let err := 0 in
  if i2c_is_isa_adapter env then
    printk "lm77.o: lm77_detect called for an ISA bus adapter?!?" ;;;
    ret (0, None)
  else if negb (i2c_check_functionality env) then ret (err, None)
  else if negb (kmalloc_succeeds env) then ret (- ENOMEM, None)
  else
    core Kmalloc ;;;
    let data := mk_lm77_data address 0 0 0 0 0 0 0 0 0 in
    bad <- (if kind <? 0 then remaining_detection else ret false) ;;
    if bad then core Kfree ;;; ret (err, None)
    else
      (* Determine the chip type - only one kind supported! *)
      let kind := if kind <=? 0 then lm77 else kind in
      if negb (kind =? lm77) then core Kfree ;;; ret (err, None)
      else
        let data := set_valid 0 data in
        (* Tell the I2C layer a new client has arrived *)
        core AttachClient ;;;
        let err := i2c_attach_client env in
        if negb (err =? 0) then core Kfree ;;; ret (err, None)
        else
          (* Register a new directory entry with module sensors *)
          core RegisterEntry ;;;
          let i := i2c_register_entry env in
          if i <? 0 then
            core DetachClient ;;; core Kfree ;;; ret (i, None)
          else
            let data := set_sysctl_id i data in
            (* Initialize the LM77 chip *)
            lm77_init_client ;;;
            ret (0, Some data).

End Driver.

(** ** lm77.c: the debugging reset handler *)

(** LM77 default register values (under [#ifdef DEBUG]). *)
Definition LM77_DEFAULT_CONF : Z := 0.
Definition LM77_DEFAULT_T_LOW : Z := 160.      (* 0xa0, 10 deg celcius *)
Definition LM77_DEFAULT_T_HIGH : Z := 1024.    (* 0x400, 64 deg celcius *)
Definition LM77_DEFAULT_T_CRIT : Z := 1280.    (* 0x500, 80 deg celcius *)
Definition LM77_DEFAULT_T_HYST : Z := 32.      (* 0x20, 2 deg celcius *)

Definition LM77_SYSCTL_RESET : Z := 1204.

Definition msg_reset : string := "lm77: registers reset to their default,".

Section Reset.
Context {chip : Type} `{SMBus chip}.

(** [void lm77_proc_reset(client, operation, ctl_name, nrels_mag, results)];
    the result is [*nrels_mag] on return.  [results[0]] is compared as the
    [long] it is. *)
Definition lm77_proc_reset (operation ctl_name nrels_mag : Z)
    (results : list Z) : K chip Z :=
  if operation =? SENSORS_PROC_REAL_INFO then ret 0
  else if operation =? SENSORS_PROC_REAL_READ then
    (* nothing to read *)
    ret 0
  else if operation =? SENSORS_PROC_REAL_WRITE then
    if (nrels_mag >=? 1) && (array_get results 0 0 =? 1) then
      lm77_write_value LM77_REG_CONF LM77_DEFAULT_CONF ;;;
      lm77_write_value LM77_REG_T_LOW LM77_DEFAULT_T_LOW ;;;
      lm77_write_value LM77_REG_T_HIGH LM77_DEFAULT_T_HIGH ;;;
      lm77_write_value LM77_REG_T_CRIT LM77_DEFAULT_T_CRIT ;;;
      lm77_write_value LM77_REG_T_HYST LM77_DEFAULT_T_HYST ;;;
      printk msg_reset ;;;
      ret nrels_mag
    else ret nrels_mag
  else ret nrels_mag.

End Reset.

(** ** lm77.h, first part: the codec in tenths of a degree *)

Module DeciCodec.

Definition LM77_TEMP_MIN : Z := -550.
Definition LM77_TEMP_MAX : Z := 1250.

(** Conversion to [s16]. *)
Definition to_s16 (x : Z) : Z := (x + 32768) mod 65536 - 32768.

(** [static inline s16 LM77_TEMP_TO_REG(int temp)] *)
Definition LM77_TEMP_TO_REG (temp : Z) : Z :=
  let ntemp := SENSORS_LIMIT temp LM77_TEMP_MIN LM77_TEMP_MAX in
  to_s16 (to_int (Z.quot ntemp 5 * 8)).

(** [static inline int LM77_TEMP_FROM_REG(s16 reg)] *)
Definition LM77_TEMP_FROM_REG (reg : Z) : Z :=
  to_int (Z.quot (to_s16 reg) 8 * 5).

End DeciCodec.

(** The margin check in the words of the specification: it is violated
    when candidate low + candidate hysteresis >= candidate high - candidate
    hysteresis.  To be compared with the fourth comparison of
    [sanity_checks]. *)
Definition spec_margin_violated (low high hyst : Z) : bool :=
  low + hyst >=? high - hyst.

(** A word as read from the bus (high byte first, so byte-swapped) whose
    top four bits, the sign extension of the temperature, are neither
    all-ones nor all-zero. *)
Definition sign_extension_malformed (raw : Z) : Prop :=
  Z.shiftr (swab16 raw) 12 <> 15 /\ Z.shiftr (swab16 raw) 12 <> 0.

Definition sign_extension_malformedb (raw : Z) : bool :=
  negb (Z.shiftr (swab16 raw) 12 =? 15) && negb (Z.shiftr (swab16 raw) 12 =? 0).

(** A computation that issues no write on the bus, calls nothing in the
    i2c core and prints nothing. *)
Definition reads_only {chip A : Type} (m : K chip A) : Prop :=
  forall k,
    filter is_write (trace (snd (m k))) = filter is_write (trace k)
    /\ calls (snd (m k)) = calls k
    /\ dmesg (snd (m k)) = dmesg k.

(** ** Test doubles *)

Module Sim.

(** A simulated LM77: the six registers in device byte order and the
    latch holding the last value read.  Register numbers wrap every eight
    addresses; 6 and 7 answer with the latch. *)
Record lm77_chip : Type := mk_chip {
  r_temp : Z;
  r_conf : Z;
  r_hyst : Z;
  r_crit : Z;
  r_low : Z;
  r_high : Z;
  latch : Z
}.

Definition select (c : lm77_chip) (reg : Z) : Z :=
  let r := reg mod 8 in
  if r =? 0 then r_temp c
  else if r =? 1 then r_conf c
  else if r =? 2 then r_hyst c
  else if r =? 3 then r_crit c
  else if r =? 4 then r_low c
  else if r =? 5 then r_high c
  else latch c.

Definition latched (c : lm77_chip) (v : Z) : lm77_chip :=
  mk_chip (r_temp c) (r_conf c) (r_hyst c) (r_crit c) (r_low c) (r_high c) v.

Definition store (c : lm77_chip) (reg v : Z) : lm77_chip :=
  let r := reg mod 8 in
  if r =? 1 then
    mk_chip (r_temp c) v (r_hyst c) (r_crit c) (r_low c) (r_high c) (latch c)
  else if r =? 2 then
    mk_chip (r_temp c) (r_conf c) v (r_crit c) (r_low c) (r_high c) (latch c)
  else if r =? 3 then
    mk_chip (r_temp c) (r_conf c) (r_hyst c) v (r_low c) (r_high c) (latch c)
  else if r =? 4 then
    mk_chip (r_temp c) (r_conf c) (r_hyst c) (r_crit c) v (r_high c) (latch c)
  else if r =? 5 then
    mk_chip (r_temp c) (r_conf c) (r_hyst c) (r_crit c) (r_low c) v (latch c)
  else c.

#[export] Instance lm77_chip_bus : SMBus lm77_chip := {
  xfer_read_byte c reg :=
    let v := select c reg in
    (Some (if reg mod 8 =? 1 then to_u8 v else Z.shiftr v 8), latched c v);
  xfer_read_word c reg :=
    let v := select c reg in (Some (swab16 v), latched c v);
  xfer_write_byte c reg v := (true, store c reg v);
  xfer_write_word c reg v := (true, store c reg (swab16 v))
}.

(** An address where every transfer fails. *)
Inductive dead_bus : Type := Dead.

#[export] Instance dead_bus_bus : SMBus dead_bus := {
  xfer_read_byte c _ := (None, c);
  xfer_read_word c _ := (None, c);
  xfer_write_byte c _ _ := (false, c);
  xfer_write_word c _ _ := (false, c)
}.

(** The simulated LM77 behind a bus that loses every transfer on the
    hysteresis register. *)
Inductive lossy : Type := Lossy (c : lm77_chip).

#[export] Instance lossy_bus : SMBus lossy := {
  xfer_read_byte l reg :=
    let 'Lossy c := l in
    if reg mod 8 =? 2 then (None, l)
    else (fst (xfer_read_byte c reg), Lossy (snd (xfer_read_byte c reg)));
  xfer_read_word l reg :=
    let 'Lossy c := l in
    if reg mod 8 =? 2 then (None, l)
    else (fst (xfer_read_word c reg), Lossy (snd (xfer_read_word c reg)));
  xfer_write_byte l reg v :=
    let 'Lossy c := l in
    if reg mod 8 =? 2 then (false, l)
    else (true, Lossy (snd (xfer_write_byte c reg v)));
  xfer_write_word l reg v :=
    let 'Lossy c := l in
    if reg mod 8 =? 2 then (false, l)
    else (true, Lossy (snd (xfer_write_word c reg v)))
}.

(** A memory answering at the address: every register holds its own
    number, so nothing repeats every eight addresses. *)
Inductive eeprom : Type := Eeprom.

#[export] Instance eeprom_bus : SMBus eeprom := {
  xfer_read_byte c reg := (Some reg, c);
  xfer_read_word c reg := (Some (reg + 256 * reg), c);
  xfer_write_byte c _ _ := (true, c);
  xfer_write_word c _ _ := (true, c)
}.

(** A 32-bit host ticking at 100 Hz. *)
#[export] Instance i386 : KernelConfig := {| HZ := 100; BITS_PER_LONG := 32 |}.

Definition boot {chip} (c : chip) : kernel chip := mk_kernel c [] [] [].

(** 25 C measured, thresholds at their power-up values: T_HYST 2 C,
    T_CRIT 80 C, T_LOW 10 C, T_HIGH 64 C. *)
Definition fresh_chip : lm77_chip := mk_chip 400 0 32 1280 160 1024 0.

(** The same chip asleep, with every configuration bit set. *)
Definition sleeping_chip : lm77_chip := mk_chip 400 31 32 1280 160 1024 0.

(** Something else at the address: register 3 reads 0x3500, whose four top
    bits are 0011. *)
Definition stranger : lm77_chip := mk_chip 400 0 32 13568 160 1024 0.

Definition pc_host : host := mk_host false true true 0 7.

(** Cache contents used in the examples. *)
Definition cached : lm77_data :=
  mk_lm77_data 72 7 1 1000 25000 90000 10000 70000 2000 0.

End Sim.
Import Sim.

(** * Properties *)

(** ** Register codec *)

Example to_reg_125000 : LM77_TEMP_TO_REG 125000 = 59344.   (* 0xe7d0 *)
Proof. reflexivity. Qed.

Example to_reg_m55000 : LM77_TEMP_TO_REG (-55000) = 64656. (* 0xfc90 *)
Proof. reflexivity. Qed.

Example to_reg_clamps :
  LM77_TEMP_TO_REG 200000 = LM77_TEMP_TO_REG 125000
  /\ LM77_TEMP_TO_REG (-999999) = LM77_TEMP_TO_REG (-55000).
Proof. split; reflexivity. Qed.

Example from_reg_all_ones : LM77_TEMP_FROM_REG 65535 = -500.
Proof. reflexivity. Qed.

Lemma Z_range_forallb_spec (p : Z -> bool) (n : nat) :
  forall lo, Z_range_forallb p lo n = true ->
  forall z, lo <= z < lo + Z.of_nat n -> p z = true.
Proof.
  induction n as [|m IH]; intros lo Hall z Hz; [lia|].
  cbn [Z_range_forallb] in Hall. apply andb_true_iff in Hall.
  destruct Hall as [Hlo Hrest].
  destruct (Z.eq_dec z lo) as [->|Hne]; [exact Hlo|].
  apply (IH (lo + 1) Hrest). lia.
Qed.

Lemma SENSORS_LIMIT_in_range (x lo hi : Z) :
  lo <= x <= hi -> SENSORS_LIMIT x lo hi = x.
Proof.
  intros Hx. unfold SENSORS_LIMIT.
  destruct (Z.ltb_spec x lo); [lia|].
  destruct (x >? hi) eqn:E; [|reflexivity].
  apply Z.gtb_lt in E. lia.
Qed.

(** Encoding only looks at the number of half degrees. *)
Lemma LM77_TEMP_TO_REG_step (v : Z) :
  -55000 <= v <= 125000 ->
  LM77_TEMP_TO_REG v = LM77_TEMP_TO_REG (Z.quot v 500 * 500).
Proof.
  intros Hv.
  assert (Hq : -110 <= Z.quot v 500 <= 250).
  { split.
    - change (-110) with (Z.quot (-55000) 500). apply Z.quot_le_mono; lia.
    - change 250 with (Z.quot 125000 500). apply Z.quot_le_mono; lia. }
  unfold LM77_TEMP_TO_REG.
  rewrite !SENSORS_LIMIT_in_range
    by (unfold LM77_TEMP_MIN, LM77_TEMP_MAX; lia).
  rewrite Z.quot_mul by lia. reflexivity.
Qed.

Lemma decode_encode_half_degrees (q : Z) :
  -110 <= q <= 250 ->
  LM77_TEMP_FROM_REG (LM77_TEMP_TO_REG (q * 500)) = q * 500.
Proof.
  intros Hq. apply Z.eqb_eq.
  apply (Z_range_forallb_spec
           (fun q => LM77_TEMP_FROM_REG (LM77_TEMP_TO_REG (q * 500)) =? q * 500)
           361 (-110)); [|lia].
  vm_compute. reflexivity.
Qed.

(** C1: for every millidegree temperature [v] in [-55000, 125000], decoding
    the encoded register value gives [v] truncated toward zero to a
    multiple of 500. *)
Theorem C1_decode_encode (v : Z) :
  -55000 <= v <= 125000 ->
  LM77_TEMP_FROM_REG (LM77_TEMP_TO_REG v) = Z.quot v 500 * 500.
Proof.
  intros Hv.
  rewrite LM77_TEMP_TO_REG_step by exact Hv.
  apply decode_encode_half_degrees. split.
  - change (-110) with (Z.quot (-55000) 500). apply Z.quot_le_mono; lia.
  - change 250 with (Z.quot 125000 500). apply Z.quot_le_mono; lia.
Qed.

Lemma C1_decode_encode_witness :
  -55000 <= -1250 <= 125000
  /\ LM77_TEMP_FROM_REG (LM77_TEMP_TO_REG (-1250)) = Z.quot (-1250) 500 * 500.
Proof.
  split; [lia | apply (C1_decode_encode (-1250)); lia].
Defined.

(** C7, as claimed: the two register values agree below the top 4 bits,
    which are all-ones for -500 and all-zero for 500.  The first part fails:
    bits 4 to 11 differ as well. *)
Lemma C7_differ_only_in_top_4_bits_fails :
  ~ (Z.land (LM77_TEMP_TO_REG (-500)) 4095 = Z.land (LM77_TEMP_TO_REG 500) 4095
     /\ Z.shiftr (LM77_TEMP_TO_REG (-500)) 12 = 15
     /\ Z.shiftr (LM77_TEMP_TO_REG 500) 12 = 0).
Proof.
  intros [Hlow _]. vm_compute in Hlow. discriminate Hlow.
Qed.

(** C7, amended: [LM77_TEMP_TO_REG (-500)] is 0xfff8 and
    [LM77_TEMP_TO_REG 500] is 0x0008; the top 4 bits are all-ones for -500
    and all-zero for 500, and the two values differ in exactly bits 4 to 15
    (two's complement), agreeing in the low 4 bits. *)
Theorem C7_sign_bits :
  LM77_TEMP_TO_REG (-500) = 65528
  /\ LM77_TEMP_TO_REG 500 = 8
  /\ Z.shiftr (LM77_TEMP_TO_REG (-500)) 12 = 15
  /\ Z.shiftr (LM77_TEMP_TO_REG 500) 12 = 0
  /\ Z.lxor (LM77_TEMP_TO_REG (-500)) (LM77_TEMP_TO_REG 500) = 65520.
Proof. repeat split; reflexivity. Qed.

(** ** Cache refresh *)

(** Unfolds the state passing of a straight-line sequence of transfers. *)
Ltac run_bus :=
  unfold lm77_read_value, lm77_write_value, bind, ret,
    i2c_smbus_read_word_data, i2c_smbus_read_byte_data,
    i2c_smbus_write_word_data, i2c_smbus_write_byte_data; cbn;
  repeat match goal with
         | |- context [xfer_read_word ?c ?r] =>
             destruct (xfer_read_word c r) as [[?|] ?] eqn:?; cbn
         | |- context [xfer_read_byte ?c ?r] =>
             destruct (xfer_read_byte c r) as [[?|] ?] eqn:?; cbn
         | |- context [xfer_write_word ?c ?r ?v] =>
             destruct (xfer_write_word c r v) as [[|] ?] eqn:?; cbn
         | |- context [xfer_write_byte ?c ?r ?v] =>
             destruct (xfer_write_byte c r v) as [[|] ?] eqn:?; cbn
         end.

Section Refresh.
Context {chip : Type} `{SMBus chip} `{KernelConfig}.

Lemma update_due_spec (jiffies : Z) (data : lm77_data) :
  0 <= jiffies < 2 ^ BITS_PER_LONG ->
  0 <= last_updated data < 2 ^ BITS_PER_LONG ->
  0 <= HZ + Z.quot HZ 2 < 2 ^ BITS_PER_LONG ->
  update_due jiffies data = true <->
  (valid data = 0
   \/ jiffies - last_updated data > HZ + Z.quot HZ 2
   \/ jiffies < last_updated data).
Proof.
  intros Hj Hl Hw. unfold update_due, to_ulong.
  rewrite (Z.mod_small (HZ + Z.quot HZ 2)) by exact Hw.
  rewrite !orb_true_iff, Z.eqb_eq, Z.ltb_lt.
  destruct (Z.lt_ge_cases jiffies (last_updated data)) as [Hlt | Hge].
  - split; intros _; [right; right | left; right]; exact Hlt.
  - rewrite Z.mod_small by lia.
    split.
    + intros [[Hd | Hb] | Hv]; [right; left | right; right | left]; trivial.
      apply Z.gtb_lt in Hd. lia.
    + intros [Hv | [Hd | Hb]]; [right | left; left | left; right]; trivial.
      apply Z.gtb_lt. lia.
Qed.

Lemma lm77_update_client_fresh (jiffies : Z) (data : lm77_data) (k : kernel chip) :
  update_due jiffies data = false ->
  lm77_update_client jiffies data k = (data, k).
Proof. intros Hdue. unfold lm77_update_client. rewrite Hdue. reflexivity. Qed.

Lemma lm77_update_client_stale (jiffies : Z) (data : lm77_data) (k : kernel chip) :
  update_due jiffies data = true ->
  let (data', k') := lm77_update_client jiffies data k in
  trace k' = trace k ++ [ReadWord 0; ReadWord 2; ReadWord 3; ReadWord 4;
                         ReadWord 5; ReadWord 0]
  /\ valid data' = 1 /\ last_updated data' = jiffies
  /\ calls k' = calls k /\ dmesg k' = dmesg k.
Proof.
  intros Hdue. unfold lm77_update_client. rewrite Hdue.
  run_bus; rewrite <- !app_assoc; repeat split; reflexivity.
Qed.

(** C6: a request re-reads the five registers exactly when [valid] is
    clear, or more than [HZ + HZ / 2] jiffies have passed since the last
    refresh, or the clock is behind [last_updated]; otherwise it leaves the
    cache and the bus alone, so a second request within the window issues
    no further transfer. *)
Theorem C6_refresh_policy (jiffies jiffies' : Z) (data : lm77_data)
    (k : kernel chip) :
  0 <= jiffies < 2 ^ BITS_PER_LONG ->
  0 <= last_updated data < 2 ^ BITS_PER_LONG ->
  0 <= HZ + Z.quot HZ 2 < 2 ^ BITS_PER_LONG ->
  let stale := valid data = 0
               \/ jiffies - last_updated data > HZ + Z.quot HZ 2
               \/ jiffies < last_updated data in
  let first := lm77_update_client jiffies data k in
  (stale ->
   trace (snd first) = trace k ++ [ReadWord 0; ReadWord 2; ReadWord 3;
                                   ReadWord 4; ReadWord 5; ReadWord 0])
  /\ (~ stale -> first = (data, k))
  /\ (stale ->
      jiffies <= jiffies' < 2 ^ BITS_PER_LONG ->
      jiffies' - jiffies <= HZ + Z.quot HZ 2 ->
      lm77_update_client jiffies' (fst first) (snd first) = first).
Proof.
  intros Hj Hl Hw stale first.
  pose proof (update_due_spec jiffies data Hj Hl Hw) as Hspec.
  fold stale in Hspec.
  split; [|split].
  - intros Hs. apply Hspec in Hs.
    pose proof (lm77_update_client_stale jiffies data k Hs) as Hrun.
    fold first in Hrun. destruct first as [d1 k1]. apply Hrun.
  - intros Hs. apply lm77_update_client_fresh.
    destruct (update_due jiffies data); [|reflexivity].
    exfalso. apply Hs, Hspec. reflexivity.
  - intros Hs Hj' Hwin. apply Hspec in Hs.
    pose proof (lm77_update_client_stale jiffies data k Hs) as Hrun.
    fold first in Hrun. destruct first as [d1 k1].
    destruct Hrun as (_ & Hvalid & Hlast & _). cbn [fst snd].
    apply lm77_update_client_fresh.
    destruct (update_due jiffies' d1) eqn:Hdue; [|reflexivity].
    apply update_due_spec in Hdue; rewrite ?Hlast; try lia.
Qed.

(** A transfer that fails yields [-1], which [lm77_read_value] turns into
    the register value 0xffff. *)
Lemma failed_word_decodes_to :
  LM77_TEMP_FROM_REG (swab16 (-1)) = -500
  /\ to_u8 (Z.land (swab16 (-1)) LM77_ALARM_MASK) = 7.
Proof. split; reflexivity. Qed.

(** C3, amended: a failing bus read does not abort a triggered refresh and
    nothing is reported to the caller.  All six reads are issued, each on
    the chip as the previous one left it; every field takes the decoding of
    what its own read returned, which for a failed read is -1, so that the
    temperature is stored as -500 (the decoding of 0xffff) and the alarm
    bits as 7; [last_updated] and [valid] are set as after a successful
    refresh. *)
Theorem C3_failed_reads_are_cached (jiffies : Z) (data : lm77_data)
    (k : kernel chip) :
  update_due jiffies data = true ->
  let r_temp := xfer_read_word (hw k) LM77_REG_TEMP in
  let r_hyst := xfer_read_word (snd r_temp) LM77_REG_T_HYST in
  let r_crit := xfer_read_word (snd r_hyst) LM77_REG_T_CRIT in
  let r_low := xfer_read_word (snd r_crit) LM77_REG_T_LOW in
  let r_high := xfer_read_word (snd r_low) LM77_REG_T_HIGH in
  let r_alarms := xfer_read_word (snd r_high) LM77_REG_TEMP in
  let word (r : option Z * chip) :=
    match fst r with Some v => to_u16 v | None => -1 end in
  let run := lm77_update_client jiffies data k in
  fst run
  = mk_lm77_data (addr data) (sysctl_id data) 1 jiffies
      (LM77_TEMP_FROM_REG (swab16 (word r_temp)))
      (LM77_TEMP_FROM_REG (swab16 (word r_crit)))
      (LM77_TEMP_FROM_REG (swab16 (word r_low)))
      (LM77_TEMP_FROM_REG (swab16 (word r_high)))
      (LM77_TEMP_FROM_REG (swab16 (word r_hyst)))
      (to_u8 (Z.land (swab16 (word r_alarms)) LM77_ALARM_MASK))
  /\ hw (snd run) = snd r_alarms
  /\ trace (snd run)
     = trace k ++ [ReadWord LM77_REG_TEMP; ReadWord LM77_REG_T_HYST;
                   ReadWord LM77_REG_T_CRIT; ReadWord LM77_REG_T_LOW;
                   ReadWord LM77_REG_T_HIGH; ReadWord LM77_REG_TEMP]
  /\ (fst r_temp = None -> temp_input (fst run) = -500)
  /\ (fst r_hyst = None -> temp_hyst (fst run) = -500)
  /\ (fst r_crit = None -> temp_crit (fst run) = -500)
  /\ (fst r_low = None -> temp_min (fst run) = -500)
  /\ (fst r_high = None -> temp_max (fst run) = -500)
  /\ (fst r_alarms = None -> alarms (fst run) = 7).
Proof.
  intros Hdue r_temp r_hyst r_crit r_low r_high r_alarms word run.
  assert (Hrun : run
    = (mk_lm77_data (addr data) (sysctl_id data) 1 jiffies
         (LM77_TEMP_FROM_REG (swab16 (word r_temp)))
         (LM77_TEMP_FROM_REG (swab16 (word r_crit)))
         (LM77_TEMP_FROM_REG (swab16 (word r_low)))
         (LM77_TEMP_FROM_REG (swab16 (word r_high)))
         (LM77_TEMP_FROM_REG (swab16 (word r_hyst)))
         (to_u8 (Z.land (swab16 (word r_alarms)) LM77_ALARM_MASK)),
       mk_kernel (snd r_alarms)
         (trace k ++ [ReadWord LM77_REG_TEMP; ReadWord LM77_REG_T_HYST;
                      ReadWord LM77_REG_T_CRIT; ReadWord LM77_REG_T_LOW;
                      ReadWord LM77_REG_T_HIGH; ReadWord LM77_REG_TEMP])
         (calls k) (dmesg k))).
  { subst run word. cbv beta. unfold lm77_update_client. rewrite Hdue.
    unfold lm77_read_value, bind, ret, i2c_smbus_read_word_data.
    change (to_u8 LM77_REG_TEMP =? LM77_REG_CONF) with false.
    change (to_u8 LM77_REG_T_HYST =? LM77_REG_CONF) with false.
    change (to_u8 LM77_REG_T_CRIT =? LM77_REG_CONF) with false.
    change (to_u8 LM77_REG_T_LOW =? LM77_REG_CONF) with false.
    change (to_u8 LM77_REG_T_HIGH =? LM77_REG_CONF) with false.
    change (to_u8 LM77_REG_TEMP) with LM77_REG_TEMP.
    change (to_u8 LM77_REG_T_HYST) with LM77_REG_T_HYST.
    change (to_u8 LM77_REG_T_CRIT) with LM77_REG_T_CRIT.
    change (to_u8 LM77_REG_T_LOW) with LM77_REG_T_LOW.
    change (to_u8 LM77_REG_T_HIGH) with LM77_REG_T_HIGH.
    cbv iota. subst r_alarms r_high r_low r_crit r_hyst r_temp.
    cbv beta zeta.
    repeat match goal with
           | |- context [xfer_read_word ?c ?r] =>
               destruct (xfer_read_word c r) as [? ?];
               cbn [fst snd hw trace calls dmesg]
           end.
    rewrite <- !app_assoc. reflexivity. }
  rewrite Hrun. cbn [fst snd hw trace temp_input temp_hyst temp_crit temp_min
                     temp_max alarms].
  split; [reflexivity|]. split; [reflexivity|]. split; [reflexivity|].
  subst word. cbv beta.
  split; [intros ->; reflexivity|]. split; [intros ->; reflexivity|].
  split; [intros ->; reflexivity|]. split; [intros ->; reflexivity|].
  split; intros ->; reflexivity.
Qed.

End Refresh.

Lemma C6_refresh_policy_witness :
  (0 <= 5000 < 2 ^ 32) /\ (0 <= 1000 < 2 ^ 32) /\ (0 <= 150 < 2 ^ 32)
  /\ trace (snd (lm77_update_client 5000 cached (boot fresh_chip)))
     = [ReadWord 0; ReadWord 2; ReadWord 3; ReadWord 4; ReadWord 5; ReadWord 0]
  /\ lm77_update_client 5100
       (fst (lm77_update_client 5000 cached (boot fresh_chip)))
       (snd (lm77_update_client 5000 cached (boot fresh_chip)))
     = lm77_update_client 5000 cached (boot fresh_chip).
Proof.
  assert (Hj : 0 <= 5000 < 2 ^ BITS_PER_LONG) by (cbn; lia).
  assert (Hl : 0 <= last_updated cached < 2 ^ BITS_PER_LONG) by (cbn; lia).
  assert (Hw : 0 <= HZ + Z.quot HZ 2 < 2 ^ BITS_PER_LONG) by (cbn; lia).
  destruct (C6_refresh_policy 5000 5100 cached (boot fresh_chip) Hj Hl Hw)
    as (Htrace & _ & Hsecond).
  assert (Hs : valid cached = 0
               \/ 5000 - last_updated cached > HZ + Z.quot HZ 2
               \/ 5000 < last_updated cached) by (right; left; cbn; lia).
  split; [lia|]. split; [lia|]. split; [lia|]. split.
  - exact (Htrace Hs).
  - apply (Hsecond Hs); cbn; lia.
Defined.

(** C3, as claimed, fails: on a bus where every read fails, a triggered
    refresh changes the cached state ([temp_input] becomes -500 and the
    snapshot is marked freshly valid) and returns nothing to the caller. *)
Lemma C3_failed_read_mutates_state :
  fst (xfer_read_word Dead LM77_REG_TEMP) = None
  /\ update_due 5000 cached = true
  /\ fst (lm77_update_client 5000 cached (boot Dead)) <> cached
  /\ temp_input (fst (lm77_update_client 5000 cached (boot Dead))) = -500
  /\ last_updated (fst (lm77_update_client 5000 cached (boot Dead))) = 5000.
Proof.
  repeat split; try reflexivity.
  intros Heq. apply (f_equal temp_input) in Heq. vm_compute in Heq.
  discriminate Heq.
Qed.

Lemma C3_failed_reads_are_cached_witness :
  update_due 5000 cached = true
  /\ fst (xfer_read_word (Lossy fresh_chip) LM77_REG_T_HYST) = None
  /\ fst (lm77_update_client 5000 cached (boot (Lossy fresh_chip)))
     = mk_lm77_data 72 7 1 5000 25000 80000 10000 64000 (-500) 0
  /\ trace (snd (lm77_update_client 5000 cached (boot (Lossy fresh_chip))))
     = [ReadWord LM77_REG_TEMP; ReadWord LM77_REG_T_HYST;
        ReadWord LM77_REG_T_CRIT; ReadWord LM77_REG_T_LOW;
        ReadWord LM77_REG_T_HIGH; ReadWord LM77_REG_TEMP].
Proof.
  assert (Hdue : update_due 5000 cached = true) by reflexivity.
  destruct (C3_failed_reads_are_cached 5000 cached (boot (Lossy fresh_chip))
              Hdue) as (Hdata & _ & Htrace & _).
  split; [exact Hdue|]. split; [reflexivity|].
  split; [exact Hdata | exact Htrace].
Defined.

(** ** Setpoint validation *)

Section Setpoints.
Context {chip : Type} `{SMBus chip} `{KernelConfig}.

(** What [sanity_checks] computes: every comparison is made, each one that
    fails prints its message, and [passed] is 0 as soon as one failed. *)
Lemma sanity_checks_run (slot c0 c1 c2 c3 : Z) (k : kernel chip) :
  let b1 := (c0 <? LM77_TEMP_MIN) || (c0 >? LM77_TEMP_MAX) in
  let b2 := (c1 <? LM77_TEMP_MIN) || (c1 >? LM77_TEMP_MAX) in
  let b3 := c0 >=? c1 in
  let b4 := to_int (c0 + slot) >=? to_int (c1 - slot) in
  sanity_checks slot [c0; c1; c2; c3] k
  = (if b1 || b2 || b3 || b4 then 0 else 1,
     mk_kernel (hw k) (trace k) (calls k)
       (dmesg k ++ (if b1 then [msg_low] else [])
                ++ (if b2 then [msg_high] else [])
                ++ (if b3 then [msg_order] else [])
                ++ (if b4 then [msg_margin] else []))).
Proof.
  intros b1 b2 b3 b4. destruct k as [c t cs d].
  unfold sanity_checks, bind, ret, printk, array_get. cbn [nth].
  fold b1 b2 b3 b4.
  destruct b1, b2, b3, b4; cbn; rewrite <- ?app_assoc, ?app_nil_r;
    reflexivity.
Qed.

Lemma populate_check_shape (data : lm77_data) (new : list Z) :
  exists c0 c1 c2 c3, populate_check data new = [c0; c1; c2; c3].
Proof. unfold populate_check. eauto. Qed.

(** With no value given, nothing is written. *)
Lemma apply_changes_nothing (data : lm77_data) (k : kernel chip) :
  apply_changes data
    [LM77_SC_NOTSET; LM77_SC_NOTSET; LM77_SC_NOTSET; LM77_SC_NOTSET] k
  = (data, mk_kernel (hw k) (trace k) (calls k) (dmesg k ++ [msg_applied])).
Proof. reflexivity. Qed.

Lemma user_values_none (ctl_name : Z) (results : list Z) :
  user_values ctl_name 0 results
  = [LM77_SC_NOTSET; LM77_SC_NOTSET; LM77_SC_NOTSET; LM77_SC_NOTSET].
Proof.
  unfold user_values. cbn.
  repeat match goal with |- context [if ?b then _ else _] => destruct b end;
    reflexivity.
Qed.

(** X17: when one of the four comparisons of [sanity_checks] fails, the
    fourth being the one the code makes on the word past the end of
    [check], no transfer is issued and the client data is unchanged, and
    every failed comparison, not only the first, prints its message before
    the final rejection message. *)
Theorem rejected_write_changes_nothing (jiffies stack_slot : Z) (data : lm77_data)
    (ctl_name nrels_mag : Z) (results : list Z) (k : kernel chip) :
  let check := populate_check data (user_values ctl_name nrels_mag results) in
  let low := array_get check 0 0 in
  let high := array_get check 1 0 in
  let low_bad := low < LM77_TEMP_MIN \/ low > LM77_TEMP_MAX in
  let high_bad := high < LM77_TEMP_MIN \/ high > LM77_TEMP_MAX in
  let order_bad := low >= high in
  let margin_bad :=
    to_int (low + stack_slot) >= to_int (high - stack_slot) in
  let run := lm77_proc_temp jiffies stack_slot data SENSORS_PROC_REAL_WRITE
               ctl_name nrels_mag results k in
  low_bad \/ high_bad \/ order_bad \/ margin_bad ->
  fst (fst (fst run)) = data
  /\ hw (snd run) = hw k
  /\ trace (snd run) = trace k
  /\ (low_bad -> In msg_low (dmesg (snd run)))
  /\ (high_bad -> In msg_high (dmesg (snd run)))
  /\ (order_bad -> In msg_order (dmesg (snd run)))
  /\ (margin_bad -> In msg_margin (dmesg (snd run)))
  /\ last (dmesg (snd run)) EmptyString = msg_rejected.
Proof.
  intros check low high low_bad high_bad order_bad margin_bad run Hbad.
  destruct (populate_check_shape data (user_values ctl_name nrels_mag results))
    as (c0 & c1 & c2 & c3 & Hshape).
  fold check in Hshape. subst low_bad high_bad order_bad margin_bad low high.
  rewrite Hshape in Hbad |- *. unfold array_get in Hbad |- *.
  cbn [nth] in Hbad |- *.
  set (b1 := (c0 <? LM77_TEMP_MIN) || (c0 >? LM77_TEMP_MAX)).
  set (b2 := (c1 <? LM77_TEMP_MIN) || (c1 >? LM77_TEMP_MAX)).
  set (b3 := c0 >=? c1).
  set (b4 := to_int (c0 + stack_slot) >=? to_int (c1 - stack_slot)).
  assert (H1 : c0 < LM77_TEMP_MIN \/ c0 > LM77_TEMP_MAX -> b1 = true).
  { subst b1. rewrite orb_true_iff, Z.ltb_lt, Z.gtb_lt. lia. }
  assert (H2 : c1 < LM77_TEMP_MIN \/ c1 > LM77_TEMP_MAX -> b2 = true).
  { subst b2. rewrite orb_true_iff, Z.ltb_lt, Z.gtb_lt. lia. }
  assert (H3 : c0 >= c1 -> b3 = true).
  { subst b3. rewrite Z.geb_le. lia. }
  assert (H4 : to_int (c0 + stack_slot) >= to_int (c1 - stack_slot)
               -> b4 = true).
  { subst b4. rewrite Z.geb_le. lia. }
  assert (Hany : b1 || b2 || b3 || b4 = true).
  { rewrite !orb_true_iff. tauto. }
  assert (Hrun : run = (data, nrels_mag, results,
                        mk_kernel (hw k) (trace k) (calls k)
                          ((dmesg k ++ (if b1 then [msg_low] else [])
                                    ++ (if b2 then [msg_high] else [])
                                    ++ (if b3 then [msg_order] else [])
                                    ++ (if b4 then [msg_margin] else []))
                           ++ [msg_rejected]))).
  { subst run. unfold lm77_proc_temp.
    change (SENSORS_PROC_REAL_WRITE =? SENSORS_PROC_REAL_INFO) with false.
    change (SENSORS_PROC_REAL_WRITE =? SENSORS_PROC_REAL_READ) with false.
    change (SENSORS_PROC_REAL_WRITE =? SENSORS_PROC_REAL_WRITE) with true.
    cbv iota. fold check. rewrite Hshape. unfold bind.
    rewrite sanity_checks_run. fold b1 b2 b3 b4. rewrite Hany.
    reflexivity. }
  rewrite Hrun. cbn [fst snd hw trace dmesg].
  split; [reflexivity|]. split; [reflexivity|]. split; [reflexivity|].
  split; [|split; [|split; [|split]]].
  - intros Hb. rewrite (H1 Hb), !in_app_iff. cbn. tauto.
  - intros Hb. rewrite (H2 Hb), !in_app_iff. cbn. tauto.
  - intros Hb. rewrite (H3 Hb), !in_app_iff. cbn. tauto.
  - intros Hb. rewrite (H4 Hb), !in_app_iff. cbn. tauto.
  - apply last_last.
Qed.

(** X18: a write that gives no value is checked against the cached
    values alone.  It never issues a transfer nor changes the client data;
    it is accepted when the cached values pass the four comparisons of
    [sanity_checks] and rejected, with the message of the failed
    comparison, when the cached minimum or maximum is out of bounds, when
    the cached minimum is not below the cached maximum, or when the fourth
    comparison, made on the word past the end of [check], fails. *)
Theorem empty_write_changes_nothing (jiffies stack_slot : Z) (data : lm77_data)
    (ctl_name : Z) (results : list Z) (k : kernel chip) :
  let low := temp_min data in
  let high := temp_max data in
  let low_bad := low < LM77_TEMP_MIN \/ low > LM77_TEMP_MAX in
  let high_bad := high < LM77_TEMP_MIN \/ high > LM77_TEMP_MAX in
  let order_bad := low >= high in
  let margin_bad :=
    to_int (low + stack_slot) >= to_int (high - stack_slot) in
  let run := lm77_proc_temp jiffies stack_slot data SENSORS_PROC_REAL_WRITE
               ctl_name 0 results k in
  let rejected msg :=
    In msg (dmesg (snd run))
    /\ last (dmesg (snd run)) EmptyString = msg_rejected in
  populate_check data (user_values ctl_name 0 results)
  = [temp_min data; temp_max data; temp_crit data; temp_hyst data]
  /\ fst (fst (fst run)) = data
  /\ hw (snd run) = hw k
  /\ trace (snd run) = trace k
  /\ (~ (low_bad \/ high_bad \/ order_bad \/ margin_bad) ->
      dmesg (snd run) = dmesg k ++ [msg_applied])
  /\ (low_bad -> rejected msg_low)
  /\ (high_bad -> rejected msg_high)
  /\ (order_bad -> rejected msg_order)
  /\ (margin_bad -> rejected msg_margin).
Proof.
  intros low high low_bad high_bad order_bad margin_bad run rejected.
  assert (Hcheck : populate_check data (user_values ctl_name 0 results)
                   = [temp_min data; temp_max data; temp_crit data;
                      temp_hyst data])
    by (rewrite user_values_none; reflexivity).
  split; [exact Hcheck|].
  set (b1 := (low <? LM77_TEMP_MIN) || (low >? LM77_TEMP_MAX)).
  set (b2 := (high <? LM77_TEMP_MIN) || (high >? LM77_TEMP_MAX)).
  set (b3 := low >=? high).
  set (b4 := to_int (low + stack_slot) >=? to_int (high - stack_slot)).
  set (report := dmesg k ++ (if b1 then [msg_low] else [])
                         ++ (if b2 then [msg_high] else [])
                         ++ (if b3 then [msg_order] else [])
                         ++ (if b4 then [msg_margin] else [])).
  assert (Hrun : run = (data, 0, results,
                        mk_kernel (hw k) (trace k) (calls k)
                          (report ++ [if b1 || b2 || b3 || b4
                                      then msg_rejected else msg_applied]))).
  { subst run. unfold lm77_proc_temp.
    change (SENSORS_PROC_REAL_WRITE =? SENSORS_PROC_REAL_INFO) with false.
    change (SENSORS_PROC_REAL_WRITE =? SENSORS_PROC_REAL_READ) with false.
    change (SENSORS_PROC_REAL_WRITE =? SENSORS_PROC_REAL_WRITE) with true.
    cbv iota. rewrite Hcheck, user_values_none. unfold bind.
    rewrite sanity_checks_run. fold low high. fold b1 b2 b3 b4. fold report.
    destruct (b1 || b2 || b3 || b4); [reflexivity|].
    cbn [negb Z.eqb]. rewrite apply_changes_nothing. reflexivity. }
  subst rejected. cbv beta. rewrite Hrun. cbn [fst snd hw trace dmesg].
  split; [reflexivity|]. split; [reflexivity|]. split; [reflexivity|].
  assert (H1 : low_bad <-> b1 = true).
  { subst low_bad b1. rewrite orb_true_iff, Z.ltb_lt, Z.gtb_lt. lia. }
  assert (H2 : high_bad <-> b2 = true).
  { subst high_bad b2. rewrite orb_true_iff, Z.ltb_lt, Z.gtb_lt. lia. }
  assert (H3 : order_bad <-> b3 = true).
  { subst order_bad b3. rewrite Z.geb_le. lia. }
  assert (H4 : margin_bad <-> b4 = true).
  { subst margin_bad b4. rewrite Z.geb_le. lia. }
  rewrite H1, H2, H3, H4. subst report. clearbody b1 b2 b3 b4.
  rewrite !last_last.
  split; [|split; [|split; [|split]]].
  - destruct b1, b2, b3, b4; cbn; intros Hn;
      try (exfalso; apply Hn; tauto).
    rewrite app_nil_r. reflexivity.
  - intros ->. rewrite !in_app_iff. cbn. tauto.
  - intros ->. rewrite orb_true_r, !in_app_iff. cbn. tauto.
  - intros ->. rewrite orb_true_r, !in_app_iff. cbn. tauto.
  - intros ->. rewrite orb_true_r, !in_app_iff. cbn. tauto.
Qed.

End Setpoints.

Lemma rejected_write_changes_nothing_witness :
  10000 >= 9000
  /\ fst (fst (fst (lm77_proc_temp 1100 1 cached SENSORS_PROC_REAL_WRITE
                      LM77_SYSCTL_TEMP 2 [10000; 9000] (boot fresh_chip))))
     = cached
  /\ trace (snd (lm77_proc_temp 1100 1 cached SENSORS_PROC_REAL_WRITE
                   LM77_SYSCTL_TEMP 2 [10000; 9000] (boot fresh_chip)))
     = []
  /\ In msg_order
       (dmesg (snd (lm77_proc_temp 1100 1 cached SENSORS_PROC_REAL_WRITE
                      LM77_SYSCTL_TEMP 2 [10000; 9000] (boot fresh_chip)))).
Proof.
  assert (Horder : 10000 >= 9000) by lia.
  destruct (rejected_write_changes_nothing 1100 1 cached LM77_SYSCTL_TEMP 2
              [10000; 9000] (boot fresh_chip)
              (or_intror (or_intror (or_introl Horder))))
    as (Hdata & _ & Htrace & _ & _ & Hmsg & _).
  split; [exact Horder|]. split; [exact Hdata|]. split; [exact Htrace|].
  exact (Hmsg Horder).
Defined.

Lemma empty_write_changes_nothing_witness :
  (~ ((10000 < -55000 \/ 10000 > 125000) \/ (70000 < -55000 \/ 70000 > 125000)
      \/ 10000 >= 70000 \/ to_int (10000 + 1) >= to_int (70000 - 1)))
  /\ fst (fst (fst (lm77_proc_temp 1100 1 cached SENSORS_PROC_REAL_WRITE
                      LM77_SYSCTL_TEMP 0 [] (boot fresh_chip)))) = cached
  /\ trace (snd (lm77_proc_temp 1100 1 cached SENSORS_PROC_REAL_WRITE
                   LM77_SYSCTL_TEMP 0 [] (boot fresh_chip))) = []
  /\ dmesg (snd (lm77_proc_temp 1100 1 cached SENSORS_PROC_REAL_WRITE
                   LM77_SYSCTL_TEMP 0 [] (boot fresh_chip))) = [msg_applied].
Proof.
  assert (Hsound :
    ~ ((10000 < -55000 \/ 10000 > 125000) \/ (70000 < -55000 \/ 70000 > 125000)
       \/ 10000 >= 70000 \/ to_int (10000 + 1) >= to_int (70000 - 1)))
    by (cbv [to_int]; cbn; lia).
  destruct (empty_write_changes_nothing 1100 1 cached LM77_SYSCTL_TEMP []
              (boot fresh_chip))
    as (_ & Hdata & _ & Htrace & Hok & _).
  split; [exact Hsound|]. split; [exact Hdata|]. split; [exact Htrace|].
  exact (Hok Hsound).
Defined.

(** The cache of a chip whose limits were left crossed. *)
Example crossed_limits_not_confirmed :
  let crossed := mk_lm77_data 72 7 1 1000 25000 90000 70000 10000 2000 0 in
  lm77_proc_temp 1100 1 crossed SENSORS_PROC_REAL_WRITE LM77_SYSCTL_TEMP 0 []
    (boot fresh_chip)
  = (crossed, 0, [],
     mk_kernel fresh_chip [] [] [msg_order; msg_margin; msg_rejected]).
Proof. reflexivity. Qed.

(** C2, on the code: the fourth comparison of [sanity_checks] never looks
    at the candidate hysteresis, [check[3]]; its operand is the word past
    the end of [check].  Whatever that word holds, the verdict on the
    candidate (0, 1000, hysteresis) is the same for hysteresis 0 and 600,
    so it differs from the margin check of the specification for one of
    them; and a write of hysteresis 600 against limits 0 and 1000 is
    accepted and sent to the chip when that word is 1. *)
Theorem C2_margin_check_ignores_hysteresis :
  (forall (chip : Type) (slot c0 c1 c2 h h' : Z) (k : kernel chip),
      sanity_checks slot [c0; c1; c2; h] k
      = sanity_checks slot [c0; c1; c2; h'] k)
  /\ (forall (chip : Type) (slot : Z) (k : kernel chip),
        exists h,
          (h = 0 \/ h = 600)
          /\ (fst (sanity_checks slot [0; 1000; 90000; h] k) =? 0)
             <> spec_margin_violated 0 1000 h)
  /\ (let data := mk_lm77_data 72 7 1 1000 25000 90000 0 1000 0 0 in
      let run := lm77_proc_temp 1100 1 data SENSORS_PROC_REAL_WRITE
                   LM77_SYSCTL_TEMP_HYST 1 [600] (boot fresh_chip) in
      populate_check data (user_values LM77_SYSCTL_TEMP_HYST 1 [600])
      = [0; 1000; 90000; 600]
      /\ spec_margin_violated 0 1000 600 = true
      /\ dmesg (snd run) = [msg_applied]
      /\ trace (snd run) = [WriteWord LM77_REG_T_HYST 2048]).
Proof.
  assert (Hsame : forall (chip : Type) (slot c0 c1 c2 h h' : Z)
                         (k : kernel chip),
             sanity_checks slot [c0; c1; c2; h] k
             = sanity_checks slot [c0; c1; c2; h'] k).
  { intros chip slot c0 c1 c2 h h' k. rewrite !sanity_checks_run.
    reflexivity. }
  split; [exact Hsame|]. split.
  - intros chip slot k.
    destruct (fst (sanity_checks slot [0; 1000; 90000; 0] k) =? 0) eqn:Hv.
    + exists 0. split; [left; reflexivity|].
      rewrite Hv. discriminate.
    + exists 600. split; [right; reflexivity|].
      rewrite (Hsame chip slot 0 1000 90000 600 0 k), Hv. discriminate.
  - cbv zeta. repeat split; reflexivity.
Qed.

(** The branch for [new[3]] stores the hysteresis in [temp_max]. *)
Lemma apply_changes_hysteresis_only {chip : Type} `{SMBus chip}
    (data : lm77_data) (v : Z) (k : kernel chip) :
  v <> LM77_SC_NOTSET ->
  let data' :=
    fst (apply_changes data
           [LM77_SC_NOTSET; LM77_SC_NOTSET; LM77_SC_NOTSET; v] k) in
  temp_max data' = v /\ temp_hyst data' = temp_hyst data.
Proof.
  intros Hv. apply Z.eqb_neq in Hv.
  unfold apply_changes, array_get. cbn [nth].
  change (LM77_SC_NOTSET =? LM77_SC_NOTSET) with true. rewrite Hv.
  cbn [negb]. run_bus; split; reflexivity.
Qed.

(** C4, on the code: an accepted write of the hysteresis alone (3000, with
    10000/70000/90000/2000 cached) sends the hysteresis register but
    stores the value in the cached maximum: [temp_max] becomes 3000 and
    [temp_hyst] keeps 2000.  An accepted write of the maximum alone (80000,
    the minimum position holding the not-set value) changes only the
    maximum, in the cache and on the chip. *)
Theorem C4_hysteresis_write_overwrites_temp_max :
  let data := mk_lm77_data 72 7 1 1000 25000 90000 10000 70000 2000 0 in
  let hyst_only := lm77_proc_temp 1100 1 data SENSORS_PROC_REAL_WRITE
                     LM77_SYSCTL_TEMP_HYST 1 [3000] (boot fresh_chip) in
  let max_only := lm77_proc_temp 1100 1 data SENSORS_PROC_REAL_WRITE
                    LM77_SYSCTL_TEMP 2 [LM77_SC_NOTSET; 80000]
                    (boot fresh_chip) in
  (dmesg (snd hyst_only) = [msg_applied]
   /\ trace (snd hyst_only)
      = [WriteWord LM77_REG_T_HYST (swab16 (LM77_TEMP_TO_REG 3000))]
   /\ temp_max (fst (fst (fst hyst_only))) = 3000
   /\ temp_hyst (fst (fst (fst hyst_only))) = 2000)
  /\ (dmesg (snd max_only) = [msg_applied]
      /\ trace (snd max_only)
         = [WriteWord LM77_REG_T_HIGH (swab16 (LM77_TEMP_TO_REG 80000))]
      /\ fst (fst (fst max_only))
         = mk_lm77_data 72 7 1 1000 25000 90000 10000 80000 2000 0).
Proof. cbv zeta. repeat split; reflexivity. Qed.

(** ** Detection *)

Section Detection.
Context {chip : Type} `{SMBus chip} `{KernelConfig}.

Lemma reads_only_ret {A : Type} (a : A) : reads_only (chip := chip) (ret a).
Proof. intros k. repeat split. Qed.

Lemma reads_only_bind {A B : Type} (m : K chip A) (f : A -> K chip B) :
  reads_only m -> (forall a, reads_only (f a)) -> reads_only (bind m f).
Proof.
  intros Hm Hf k. unfold bind.
  specialize (Hm k). destruct (m k) as [a k1]. cbn [snd] in Hm.
  specialize (Hf a k1). destruct Hm as (Ht & Hc & Hd).
  destruct Hf as (Ht' & Hc' & Hd'). repeat split; congruence.
Qed.

Lemma reads_only_orK (a b : K chip bool) :
  reads_only a -> reads_only b -> reads_only (orK a b).
Proof.
  intros Ha Hb. apply reads_only_bind; [exact Ha|].
  intros [|]; [apply reads_only_ret | exact Hb].
Qed.

Lemma reads_only_read_word (reg : Z) :
  reads_only (i2c_smbus_read_word_data reg).
Proof.
  intros k. unfold i2c_smbus_read_word_data.
  destruct (xfer_read_word (hw k) (to_u8 reg)) as [r c]. cbn.
  rewrite filter_app. cbn. rewrite app_nil_r. repeat split.
Qed.

Lemma reads_only_read_byte (reg : Z) :
  reads_only (i2c_smbus_read_byte_data reg).
Proof.
  intros k. unfold i2c_smbus_read_byte_data.
  destruct (xfer_read_byte (hw k) (to_u8 reg)) as [r c]. cbn.
  rewrite filter_app. cbn. rewrite app_nil_r. repeat split.
Qed.

Create HintDb lm77_reads.
#[local] Hint Resolve reads_only_ret reads_only_read_word reads_only_read_byte
  : lm77_reads.

Ltac reads_only_steps :=
  repeat first
    [ apply reads_only_orK
    | apply reads_only_bind; [|intros ?]
    | solve [auto with lm77_reads] ].

Lemma reads_only_alias_mismatch (i conf hyst crit min max : Z) :
  reads_only (alias_mismatch i conf hyst crit min max).
Proof. unfold alias_mismatch. reads_only_steps. Qed.

Lemma reads_only_alias_scan (offsets : list Z) (conf hyst crit min max : Z) :
  reads_only (alias_scan offsets conf hyst crit min max).
Proof.
  induction offsets as [|i rest IH]; cbn [alias_scan].
  - apply reads_only_ret.
  - apply reads_only_bind; [apply reads_only_alias_mismatch|].
    intros [|]; [apply reads_only_ret | exact IH].
Qed.

Lemma reads_only_shadow_mismatch : reads_only shadow_mismatch.
Proof. unfold shadow_mismatch. reads_only_steps. Qed.

Lemma reads_only_probe_reads : reads_only probe_reads.
Proof. unfold probe_reads. reads_only_steps. Qed.

Lemma reads_only_remaining_detection : reads_only remaining_detection.
Proof.
  unfold remaining_detection.
  apply reads_only_bind; [apply reads_only_probe_reads|].
  intros [[[[[cur conf] hyst] crit] min] max].
  apply reads_only_bind; [apply reads_only_alias_scan|].
  intros [|]; [apply reads_only_ret|].
  repeat match goal with
         | |- reads_only (if ?b then _ else _) => destruct b
         | |- reads_only (ret _) => apply reads_only_ret
         | |- reads_only (bind _ _) =>
             apply reads_only_bind; [apply reads_only_shadow_mismatch|intros ?]
         end.
Qed.

(** The offsets scanned are the multiples of 8 from 8 to 255. *)
Lemma scan_offsets_spec (i : Z) :
  In i scan_offsets <-> (8 <= i <= 255 /\ i mod 8 = 0).
Proof.
  unfold scan_offsets. rewrite in_map_iff. split.
  - intros (n & <- & Hn). apply in_seq in Hn.
    split; [lia|]. rewrite Z.mul_comm. apply Z_mod_mult.
  - intros [Hi Hm]. exists (Z.to_nat (i / 8)). split.
    + rewrite Z2Nat.id by (apply Z.div_pos; lia).
      pose proof (Z_div_mod_eq_full i 8). lia.
    + apply in_seq.
      assert (1 <= i / 8 < 32)
        by (split; [apply Z.div_le_lower_bound | apply Z.div_lt_upper_bound];
            lia).
      lia.
Qed.



Lemma sign_bits_bad_spec (raw : Z) :
  -1 <= raw < 65536 ->
  sign_bits_bad raw = true <-> sign_extension_malformed raw.
Proof.
  intros Hraw.
  assert (Hb : Bool.eqb (sign_bits_bad raw) (sign_extension_malformedb raw)
               = true).
  { apply (Z_range_forallb_spec
             (fun x => Bool.eqb (sign_bits_bad x)
                         (sign_extension_malformedb x))
             (Z.to_nat 65537) (-1)); [vm_compute; reflexivity | lia]. }
  apply eqb_prop in Hb. rewrite Hb.
  unfold sign_extension_malformedb, sign_extension_malformed.
  rewrite andb_true_iff, !negb_true_iff, !Z.eqb_neq. reflexivity.
Qed.





(** [lm77_init_client] reads the configuration and writes 0 to it,
    whatever it has read. *)
Lemma lm77_init_client_run (k : kernel chip) :
  trace (snd (lm77_init_client k))
  = trace k ++ [ReadByte LM77_REG_CONF; WriteByte LM77_REG_CONF 0]
  /\ calls (snd (lm77_init_client k)) = calls k.
Proof.
  unfold lm77_init_client, lm77_read_value, lm77_write_value.
  change (to_u8 LM77_REG_CONF =? LM77_REG_CONF) with true. cbv iota.
  unfold bind, ret, i2c_smbus_read_byte_data, i2c_smbus_write_byte_data.
  change (to_u8 LM77_REG_CONF) with LM77_REG_CONF.
  change (to_u8 (to_u16 0)) with 0.
  destruct (xfer_read_byte (hw k) LM77_REG_CONF) as [r c].
  match goal with
  | |- context [if ?b then printk _ else _] => destruct b
  end; cbn;
    match goal with
    | |- context [xfer_write_byte ?c ?r ?v] =>
        destruct (xfer_write_byte c r v) as [ok c']
    end; cbn; rewrite <- app_assoc; split; reflexivity.
Qed.

(** C10: whenever [lm77_detect] leaves a client attached, its last two
    transfers are the read of the configuration register and a byte write
    of 0 to it, for every content of that register; nothing else was
    written, and the client data is still marked not valid, so no refresh
    has taken place. *)
Theorem C10_attach_clears_configuration (env : host) (address kind : Z)
    (k : kernel chip) (data : lm77_data) :
  snd (fst (lm77_detect env address kind k)) = Some data ->
  let run := lm77_detect env address kind k in
  fst (fst run) = 0
  /\ valid data = 0
  /\ exists t,
      trace (snd run)
      = t ++ [ReadByte LM77_REG_CONF; WriteByte LM77_REG_CONF 0]
      /\ filter is_write t = filter is_write (trace k).
Proof.
  intros Hsome run. subst run.
  destruct (lm77_detect env address kind k) as [[r o] k'] eqn:Hrun.
  cbn [fst snd] in Hsome |- *. subst o. revert Hrun. unfold lm77_detect.
  assert (Hprobe : reads_only (chip := chip)
                     (if kind <? 0 then remaining_detection else ret false)).
  { destruct (kind <? 0);
      [apply reads_only_remaining_detection | apply reads_only_ret]. }
  specialize (Hprobe (snd (core Kmalloc k))).
  destruct (i2c_is_isa_adapter env);
    [intros E; cbv [bind printk ret] in E; discriminate E|].
  destruct (i2c_check_functionality env); cbn [negb];
    [|intros E; cbv [ret] in E; discriminate E].
  destruct (kmalloc_succeeds env); cbn [negb];
    [|intros E; cbv [ret] in E; discriminate E].
  unfold bind at 1 2.
  destruct (core Kmalloc k) as [u k0] eqn:Hk0.
  assert (Htrace0 : trace k0 = trace k)
    by (unfold core in Hk0; inversion Hk0; reflexivity).
  cbn [snd] in Hprobe.
  destruct ((if kind <? 0 then remaining_detection else ret false) k0)
    as [bad k1].
  cbn [snd] in Hprobe. destruct Hprobe as (Hwrites & _ & _).
  destruct bad; [intros E; cbv [bind core ret] in E; discriminate E|].
  destruct (negb ((if kind <=? 0 then lm77 else kind) =? lm77));
    [intros E; cbv [bind core ret] in E; discriminate E|].
  unfold bind at 1. cbn [core].
  destruct (negb (i2c_attach_client env =? 0));
    [intros E; cbv [bind core ret] in E; discriminate E|].
  unfold bind at 1. cbn [core].
  destruct (i2c_register_entry env <? 0);
    [intros E; cbv [bind core ret] in E; discriminate E|].
  unfold bind at 1.
  match goal with
  | |- context [lm77_init_client ?k2] =>
      destruct (lm77_init_client_run k2) as (Hinit & _);
      destruct (lm77_init_client k2) as [u2 k3]
  end.
  cbn [fst snd ret trace] in Hinit |- *.
  intros E. inversion E; subst.
  split; [reflexivity|]. split; [reflexivity|].
  exists (trace k1). split; [exact Hinit | congruence].
Qed.

End Detection.


(** Malformed sign bits: register 3 of [stranger] reads 0x3500. *)
Example stranger_rejected :
  sign_bits_bad (swab16 13568) = true
  /\ lm77_detect pc_host 72 (-1) (boot stranger)
     = (0, None,
        mk_kernel (hw (snd (lm77_detect pc_host 72 (-1) (boot stranger))))
          (trace (snd (remaining_detection (boot stranger))))
          [Kmalloc; Kfree] []).
Proof. split; vm_compute; reflexivity. Qed.

(** A dead address is rejected on the configuration byte: -1 has its top
    bits set. *)
Example dead_bus_rejected :
  fst (lm77_detect pc_host 72 (-1) (boot Dead)) = (0, None)
  /\ calls (snd (lm77_detect pc_host 72 (-1) (boot Dead))) = [Kmalloc; Kfree].
Proof. split; vm_compute; reflexivity. Qed.

(** A healthy chip is accepted. *)
Example fresh_chip_accepted :
  fst (lm77_detect pc_host 72 (-1) (boot fresh_chip))
  = (0, Some (mk_lm77_data 72 7 0 0 0 0 0 0 0 0))
  /\ calls (snd (lm77_detect pc_host 72 (-1) (boot fresh_chip)))
     = [Kmalloc; AttachClient; RegisterEntry].
Proof. split; vm_compute; reflexivity. Qed.

Lemma C10_attach_clears_configuration_witness :
  snd (fst (lm77_detect pc_host 72 (-1) (boot sleeping_chip)))
  = Some (mk_lm77_data 72 7 0 0 0 0 0 0 0 0)
  /\ fst (fst (lm77_detect pc_host 72 (-1) (boot sleeping_chip))) = 0
  /\ exists t,
      trace (snd (lm77_detect pc_host 72 (-1) (boot sleeping_chip)))
      = t ++ [ReadByte LM77_REG_CONF; WriteByte LM77_REG_CONF 0]
      /\ filter is_write t = [].
Proof.
  assert (Hsome : snd (fst (lm77_detect pc_host 72 (-1) (boot sleeping_chip)))
                  = Some (mk_lm77_data 72 7 0 0 0 0 0 0 0 0))
    by (vm_compute; reflexivity).
  destruct (C10_attach_clears_configuration pc_host 72 (-1)
              (boot sleeping_chip) _ Hsome) as (Hret & _ & Htrace).
  split; [exact Hsome|]. split; [exact Hret|]. exact Htrace.
Defined.

(** After the attach the sleeping chip is awake: its configuration is 0. *)
Example sleeping_chip_woken :
  r_conf (hw (snd (lm77_detect pc_host 72 (-1) (boot sleeping_chip)))) = 0
  /\ dmesg (snd (lm77_detect pc_host 72 (-1) (boot sleeping_chip)))
     = ["lm77: waking up bus"%string].
Proof. split; vm_compute; reflexivity. Qed.

(** An empty write against the example cache: accepted, nothing sent. *)
Example empty_write_accepted :
  lm77_proc_temp 1100 1 cached SENSORS_PROC_REAL_WRITE LM77_SYSCTL_TEMP 0 []
    (boot fresh_chip)
  = (cached, 0, [], mk_kernel fresh_chip [] [] [msg_applied]).
Proof. reflexivity. Qed.

(** ** More on the register codec *)

Lemma SENSORS_LIMIT_bounds (x lo hi : Z) :
  lo <= hi -> lo <= SENSORS_LIMIT x lo hi <= hi.
Proof.
  intros Hle. unfold SENSORS_LIMIT.
  destruct (Z.ltb_spec x lo); [lia|].
  destruct (x >? hi) eqn:E; [lia|].
  rewrite Z.gtb_ltb in E. apply Z.ltb_ge in E. lia.
Qed.

Lemma LM77_TEMP_TO_REG_limit (v : Z) :
  LM77_TEMP_TO_REG v
  = LM77_TEMP_TO_REG (SENSORS_LIMIT v LM77_TEMP_MIN LM77_TEMP_MAX).
Proof.
  unfold LM77_TEMP_TO_REG at 2.
  rewrite (SENSORS_LIMIT_in_range (SENSORS_LIMIT v LM77_TEMP_MIN LM77_TEMP_MAX))
    by (apply SENSORS_LIMIT_bounds; unfold LM77_TEMP_MIN, LM77_TEMP_MAX; lia).
  reflexivity.
Qed.

Lemma half_degrees_bounds (v : Z) :
  -110 <= Z.quot (SENSORS_LIMIT v LM77_TEMP_MIN LM77_TEMP_MAX) 500 <= 250.
Proof.
  pose proof (SENSORS_LIMIT_bounds v LM77_TEMP_MIN LM77_TEMP_MAX) as Hb.
  unfold LM77_TEMP_MIN, LM77_TEMP_MAX in *. specialize (Hb ltac:(lia)).
  split.
  - change (-110) with (Z.quot (-55000) 500). apply Z.quot_le_mono; lia.
  - change 250 with (Z.quot 125000 500). apply Z.quot_le_mono; lia.
Qed.

Lemma decode_encode_limit (v : Z) :
  LM77_TEMP_FROM_REG (LM77_TEMP_TO_REG v)
  = Z.quot (SENSORS_LIMIT v LM77_TEMP_MIN LM77_TEMP_MAX) 500 * 500.
Proof.
  pose proof (SENSORS_LIMIT_bounds v LM77_TEMP_MIN LM77_TEMP_MAX) as Hb.
  unfold LM77_TEMP_MIN, LM77_TEMP_MAX in Hb. specialize (Hb ltac:(lia)).
  rewrite LM77_TEMP_TO_REG_limit, LM77_TEMP_TO_REG_step by exact Hb.
  apply decode_encode_half_degrees, half_degrees_bounds.
Qed.

Lemma LM77_TEMP_TO_REG_range (v : Z) : 0 <= LM77_TEMP_TO_REG v < 65536.
Proof.
  unfold LM77_TEMP_TO_REG, to_u16. apply Z.mod_pos_bound. lia.
Qed.

(** X1: for every [int] given to [LM77_TEMP_TO_REG], decoding the result
    gives the value clamped to [-55000, 125000] and truncated toward zero
    to a multiple of 500; so what comes back is always within the range of
    the chip. *)
Theorem decode_encode_clamps (v : Z) :
  LM77_TEMP_FROM_REG (LM77_TEMP_TO_REG v)
  = Z.quot (SENSORS_LIMIT v LM77_TEMP_MIN LM77_TEMP_MAX) 500 * 500
  /\ -55000 <= LM77_TEMP_FROM_REG (LM77_TEMP_TO_REG v) <= 125000
  /\ (125000 <= v -> LM77_TEMP_FROM_REG (LM77_TEMP_TO_REG v) = 125000)
  /\ (v <= -55000 -> LM77_TEMP_FROM_REG (LM77_TEMP_TO_REG v) = -55000).
Proof.
  pose proof (half_degrees_bounds v) as Hq.
  pose proof (SENSORS_LIMIT_bounds v LM77_TEMP_MIN LM77_TEMP_MAX) as Hb.
  unfold LM77_TEMP_MIN, LM77_TEMP_MAX in Hb. specialize (Hb ltac:(lia)).
  assert (Heq : LM77_TEMP_FROM_REG (LM77_TEMP_TO_REG v)
                = Z.quot (SENSORS_LIMIT v LM77_TEMP_MIN LM77_TEMP_MAX) 500
                  * 500).
  { apply decode_encode_limit. }
  rewrite Heq. split; [reflexivity|]. split; [lia|]. split.
  - intros Hv. unfold SENSORS_LIMIT, LM77_TEMP_MIN, LM77_TEMP_MAX.
    destruct (Z.ltb_spec v (-55000)); [lia|].
    destruct (v >? 125000) eqn:E; [reflexivity|].
    rewrite Z.gtb_ltb in E. apply Z.ltb_ge in E.
    replace v with 125000 by lia. reflexivity.
  - intros Hv. unfold SENSORS_LIMIT, LM77_TEMP_MIN, LM77_TEMP_MAX.
    destruct (Z.ltb_spec v (-55000)); [reflexivity|].
    replace v with (-55000) by lia. reflexivity.
Qed.

(** The layout test of X2 at [q] half degrees. *)
Lemma encode_layout_half_degrees (q : Z) :
  -110 <= q <= 250 ->
  let r := LM77_TEMP_TO_REG (q * 500) in
  (0 <=? r) && (r <? 65536)
  && (Z.land r 7 =? 0)
  && (Z.land r 8191 =? (q * 8) mod 8192)
  && (Z.shiftr r 13 =? if (q <? 0) || Z.testbit r 9 then 7 else 0) = true.
Proof.
  intros Hq.
  apply (Z_range_forallb_spec
           (fun q =>
              let r := LM77_TEMP_TO_REG (q * 500) in
              (0 <=? r) && (r <? 65536)
              && (Z.land r 7 =? 0)
              && (Z.land r 8191 =? (q * 8) mod 8192)
              && (Z.shiftr r 13 =? if (q <? 0) || Z.testbit r 9 then 7 else 0))
           361 (-110)); [vm_compute; reflexivity | lia].
Qed.

(** X2: the word [LM77_TEMP_TO_REG] produces, for every argument: it fits
    16 bits, bits 0 to 2 (the alarm flags of the temperature register) are
    clear, bits 0 to 12 hold the clamped number of half degrees times 8 in
    two's complement, and bits 13 to 15 are all set when that number is
    negative or bit 9 of the word is set, and all clear otherwise. *)
Theorem encode_layout (v : Z) :
  let q := Z.quot (SENSORS_LIMIT v LM77_TEMP_MIN LM77_TEMP_MAX) 500 in
  let r := LM77_TEMP_TO_REG v in
  0 <= r < 65536
  /\ Z.land r 7 = 0
  /\ Z.land r 8191 = (q * 8) mod 8192
  /\ Z.shiftr r 13 = if (q <? 0) || Z.testbit r 9 then 7 else 0.
Proof.
  intros q r.
  pose proof (half_degrees_bounds v) as Hq. fold q in Hq.
  pose proof (SENSORS_LIMIT_bounds v LM77_TEMP_MIN LM77_TEMP_MAX) as Hb.
  unfold LM77_TEMP_MIN, LM77_TEMP_MAX in Hb. specialize (Hb ltac:(lia)).
  assert (Hr : r = LM77_TEMP_TO_REG (q * 500)).
  { subst r q. rewrite LM77_TEMP_TO_REG_limit.
    apply LM77_TEMP_TO_REG_step. exact Hb. }
  pose proof (encode_layout_half_degrees q Hq) as Hl.
  cbv zeta in Hl. rewrite <- Hr in Hl.
  rewrite !andb_true_iff, Z.leb_le, Z.ltb_lt, !Z.eqb_eq in Hl.
  tauto.
Qed.

(** The decoding test of X3 on one 16-bit word. *)
Lemma decode_field_u16 (reg : Z) :
  0 <= reg < 65536 ->
  (LM77_TEMP_FROM_REG reg
   =? ((Z.shiftr reg 3 + 512) mod 1024 - 512) * 500) = true.
Proof.
  intros Hreg.
  apply (Z_range_forallb_spec
           (fun reg => LM77_TEMP_FROM_REG reg
                       =? ((Z.shiftr reg 3 + 512) mod 1024 - 512) * 500)
           (Z.to_nat 65536) 0); [vm_compute; reflexivity | lia].
Qed.

Lemma decode_range (reg : Z) :
  LM77_TEMP_FROM_REG reg mod 500 = 0
  /\ -256000 <= LM77_TEMP_FROM_REG reg <= 255500.
Proof.
  assert (Hu : 0 <= to_u16 reg < 65536)
    by (unfold to_u16; apply Z.mod_pos_bound; lia).
  assert (Hidem : LM77_TEMP_FROM_REG reg = LM77_TEMP_FROM_REG (to_u16 reg)).
  { unfold LM77_TEMP_FROM_REG, to_u16. rewrite Z.mod_mod by lia.
    reflexivity. }
  pose proof (decode_field_u16 (to_u16 reg) Hu) as Hf.
  apply Z.eqb_eq in Hf. rewrite Hidem, Hf.
  pose proof (Z.mod_pos_bound (Z.shiftr (to_u16 reg) 3 + 512) 1024).
  split; [apply Z_mod_mult | lia].
Qed.

(** X3: [LM77_TEMP_FROM_REG] reads bits 3 to 12 of the register as a
    10-bit two's-complement number of half degrees: the three low bits
    (alarm flags) and bits 13 to 15 have no influence, and the result is a
    multiple of 500 between -256000 and 255500. *)
Theorem decode_field (reg : Z) :
  let field := (Z.shiftr (to_u16 reg) 3 + 512) mod 1024 - 512 in
  LM77_TEMP_FROM_REG reg = field * 500
  /\ -256000 <= LM77_TEMP_FROM_REG reg <= 255500
  /\ LM77_TEMP_FROM_REG reg
     = LM77_TEMP_FROM_REG (Z.land (to_u16 reg) LM77_TEMP_MASK).
Proof.
  intros field.
  assert (Hu : 0 <= to_u16 reg < 65536)
    by (unfold to_u16; apply Z.mod_pos_bound; lia).
  assert (Hidem : LM77_TEMP_FROM_REG reg = LM77_TEMP_FROM_REG (to_u16 reg)).
  { unfold LM77_TEMP_FROM_REG, to_u16. rewrite Z.mod_mod by lia.
    reflexivity. }
  assert (Hfield : LM77_TEMP_FROM_REG reg = field * 500).
  { rewrite Hidem. apply Z.eqb_eq, decode_field_u16. exact Hu. }
  split; [exact Hfield|]. split.
  - rewrite Hfield. subst field.
    pose proof (Z.mod_pos_bound (Z.shiftr (to_u16 reg) 3 + 512) 1024).
    lia.
  - rewrite Hidem. set (w := to_u16 reg) in *.
    apply Z.eqb_eq.
    apply (Z_range_forallb_spec
             (fun w => LM77_TEMP_FROM_REG w
                       =? LM77_TEMP_FROM_REG (Z.land w LM77_TEMP_MASK))
             (Z.to_nat 65536) 0); [vm_compute; reflexivity | lia].
Qed.

(** X4: the codec of the first part of lm77.h, in tenths of a degree with a
    signed register: decoding the encoding of any [int] gives it clamped to
    [-550, 1250] and truncated toward zero to a multiple of 5. *)
Theorem deci_decode_encode (t : Z) :
  DeciCodec.LM77_TEMP_FROM_REG (DeciCodec.LM77_TEMP_TO_REG t)
  = Z.quot (SENSORS_LIMIT t DeciCodec.LM77_TEMP_MIN DeciCodec.LM77_TEMP_MAX) 5
    * 5.
Proof.
  pose proof (SENSORS_LIMIT_bounds t DeciCodec.LM77_TEMP_MIN
                DeciCodec.LM77_TEMP_MAX) as Hb.
  unfold DeciCodec.LM77_TEMP_MIN, DeciCodec.LM77_TEMP_MAX in *.
  specialize (Hb ltac:(lia)).
  unfold DeciCodec.LM77_TEMP_FROM_REG, DeciCodec.LM77_TEMP_TO_REG.
  unfold DeciCodec.LM77_TEMP_MIN, DeciCodec.LM77_TEMP_MAX.
  set (q := Z.quot (SENSORS_LIMIT t (-550) 1250) 5).
  assert (Hq : -110 <= q <= 250).
  { subst q. split.
    - change (-110) with (Z.quot (-550) 5). apply Z.quot_le_mono; lia.
    - change 250 with (Z.quot 1250 5). apply Z.quot_le_mono; lia. }
  clearbody q. apply Z.eqb_eq.
  apply (Z_range_forallb_spec
           (fun q => to_int (Z.quot (DeciCodec.to_s16
                                       (DeciCodec.to_s16 (to_int (q * 8)))) 8
                             * 5) =? q * 5)
           361 (-110)); [vm_compute; reflexivity | lia].
Qed.

(** ** Register access and refresh *)

Lemma swab16_involutive (x : Z) :
  0 <= x < 65536 -> swab16 (swab16 x) = x.
Proof.
  intros Hx. apply Z.eqb_eq.
  apply (Z_range_forallb_spec (fun x => swab16 (swab16 x) =? x)
           (Z.to_nat 65536) 0); [vm_compute; reflexivity | lia].
Qed.

Lemma swab16_range (x : Z) : 0 <= swab16 x < 65536.
Proof.
  assert (Hu : 0 <= to_u16 x < 65536)
    by (unfold to_u16; apply Z.mod_pos_bound; lia).
  assert (Hs : swab16 x = swab16 (to_u16 x)).
  { unfold swab16, to_u16. rewrite Z.mod_mod by lia. reflexivity. }
  rewrite Hs.
  assert (Hb : (0 <=? swab16 (to_u16 x)) && (swab16 (to_u16 x) <? 65536)
               = true).
  { apply (Z_range_forallb_spec
             (fun x => (0 <=? swab16 x) && (swab16 x <? 65536))
             (Z.to_nat 65536) 0); [vm_compute; reflexivity | lia]. }
  rewrite andb_true_iff, Z.leb_le, Z.ltb_lt in Hb. exact Hb.
Qed.

Section Access.
Context {chip : Type} `{SMBus chip} `{KernelConfig}.

Lemma reads_only_lm77_read_value (reg : Z) : reads_only (lm77_read_value reg).
Proof.
  unfold lm77_read_value. destruct (to_u8 reg =? LM77_REG_CONF).
  - apply reads_only_read_byte.
  - apply reads_only_bind; [apply reads_only_read_word|].
    intros w. apply reads_only_ret.
Qed.

Lemma reads_only_lm77_update_client (jiffies : Z) (data : lm77_data) :
  reads_only (lm77_update_client jiffies data).
Proof.
  unfold lm77_update_client. destruct (update_due jiffies data).
  - repeat (apply reads_only_bind;
            [apply reads_only_lm77_read_value | intros ?]).
    apply reads_only_ret.
  - apply reads_only_ret.
Qed.

(** What a refresh stores, in terms of the six values read. *)
Lemma lm77_update_client_stores (jiffies : Z) (data : lm77_data)
    (k : kernel chip) :
  update_due jiffies data = true ->
  exists v0 v1 v2 v3 v4 v5,
    fst (lm77_update_client jiffies data k)
    = mk_lm77_data (addr data) (sysctl_id data) 1 jiffies
        (LM77_TEMP_FROM_REG v0) (LM77_TEMP_FROM_REG v2)
        (LM77_TEMP_FROM_REG v3) (LM77_TEMP_FROM_REG v4)
        (LM77_TEMP_FROM_REG v1) (to_u8 (Z.land v5 LM77_ALARM_MASK)).
Proof.
  intros Hdue. unfold lm77_update_client. rewrite Hdue. unfold bind.
  repeat match goal with
         | |- context [lm77_read_value ?r ?k] =>
             destruct (lm77_read_value r k) as [? ?]
         end.
  cbn [fst]. do 6 eexists. reflexivity.
Qed.

Lemma refreshed_alarms_range (jiffies : Z) (data : lm77_data)
    (k : kernel chip) :
  update_due jiffies data = true ->
  0 <= alarms (fst (lm77_update_client jiffies data k)) <= 7.
Proof.
  intros Hdue.
  destruct (lm77_update_client_stores jiffies data k Hdue)
    as (v0 & v1 & v2 & v3 & v4 & v5 & ->).
  cbn [alarms].
  assert (Ha : Z.land v5 LM77_ALARM_MASK = v5 mod 8)
    by (change LM77_ALARM_MASK with (Z.ones 3); apply Z.land_ones; lia).
  rewrite Ha. unfold to_u8.
  pose proof (Z.mod_pos_bound v5 8 ltac:(lia)) as Hb.
  rewrite Z.mod_small by lia. lia.
Qed.

(** X5: a setpoint survives the bus.  On a chip that answers a word read
    of a register with the word last written to it, what [lm77_read_value]
    returns after [lm77_write_value] is the 16-bit value written (the two
    byte swaps cancel), and an encoded temperature read back and decoded is
    the temperature clamped and truncated to half a degree. *)
Theorem write_then_read (reg value temp : Z) (k : kernel chip) :
  to_u8 reg <> LM77_REG_CONF ->
  (forall c w, 0 <= w < 65536 ->
     fst (xfer_read_word (snd (xfer_write_word c (to_u8 reg) w)) (to_u8 reg))
     = Some w) ->
  fst (lm77_read_value reg (snd (lm77_write_value reg value k)))
  = to_u16 value
  /\ LM77_TEMP_FROM_REG
       (fst (lm77_read_value reg
               (snd (lm77_write_value reg (LM77_TEMP_TO_REG temp) k))))
     = Z.quot (SENSORS_LIMIT temp LM77_TEMP_MIN LM77_TEMP_MAX) 500 * 500.
Proof.
  intros Hreg Hecho.
  assert (Hback : forall value,
             fst (lm77_read_value reg (snd (lm77_write_value reg value k)))
             = to_u16 value).
  { intros v. unfold lm77_read_value, lm77_write_value.
    apply Z.eqb_neq in Hreg. rewrite Hreg.
    unfold bind, ret, i2c_smbus_write_word_data, i2c_smbus_read_word_data.
    set (w := to_u16 (swab16 (to_u16 v))).
    assert (Hw : w = swab16 (to_u16 v)).
    { subst w. unfold to_u16 at 1. apply Z.mod_small, swab16_range. }
    specialize (Hecho (hw k) w ltac:(rewrite Hw; apply swab16_range)).
    destruct (xfer_write_word (hw k) (to_u8 reg) w) as [ok c1].
    cbn [snd hw] in Hecho |- *.
    destruct (xfer_read_word c1 (to_u8 reg)) as [r c2].
    cbn [fst] in Hecho |- *. subst r.
    assert (Hu : 0 <= to_u16 v < 65536)
      by (unfold to_u16; apply Z.mod_pos_bound; lia).
    rewrite Hw. unfold to_u16 at 1.
    rewrite (Z.mod_small (swab16 (to_u16 v))) by apply swab16_range.
    apply swab16_involutive. exact Hu. }
  split; [apply Hback|].
  rewrite Hback.
  unfold to_u16. rewrite Z.mod_small by apply LM77_TEMP_TO_REG_range.
  apply decode_encode_limit.
Qed.

(** X6: after any call of [lm77_update_client] the cache is marked valid;
    and when the call re-read the chip then, whatever the bus returned
    (failures included), the alarm bits are between 0 and 7 and every
    cached temperature is a multiple of 500 between -256000 and 255500. *)
Theorem refresh_postcondition (jiffies : Z) (data : lm77_data)
    (k : kernel chip) :
  let data' := fst (lm77_update_client jiffies data k) in
  valid data' <> 0
  /\ addr data' = addr data
  /\ (update_due jiffies data = true ->
      last_updated data' = jiffies
      /\ 0 <= alarms data' <= 7
      /\ Forall (fun t => t mod 500 = 0 /\ -256000 <= t <= 255500)
           [temp_input data'; temp_hyst data'; temp_crit data';
            temp_min data'; temp_max data']).
Proof.
  intros data'. subst data'.
  destruct (update_due jiffies data) eqn:Hdue.
  - destruct (lm77_update_client_stores jiffies data k Hdue)
      as (v0 & v1 & v2 & v3 & v4 & v5 & ->).
    cbn [valid addr last_updated alarms temp_input temp_hyst temp_crit
         temp_min temp_max].
    split; [discriminate|]. split; [reflexivity|]. intros _.
    split; [reflexivity|]. split.
    + assert (Ha : Z.land v5 LM77_ALARM_MASK = v5 mod 8)
        by (change LM77_ALARM_MASK with (Z.ones 3); apply Z.land_ones; lia).
      rewrite Ha. unfold to_u8.
      pose proof (Z.mod_pos_bound v5 8 ltac:(lia)) as Hb.
      rewrite Z.mod_small by lia. lia.
    + assert (Hdec : forall v,
                 LM77_TEMP_FROM_REG v mod 500 = 0
                 /\ -256000 <= LM77_TEMP_FROM_REG v <= 255500).
      { intros v. apply decode_range. }
      repeat (apply Forall_cons; [apply Hdec|]). apply Forall_nil.
  - rewrite (lm77_update_client_fresh jiffies data k Hdue). cbn [fst].
    split; [|split; [reflexivity | discriminate]].
    unfold update_due in Hdue. rewrite !orb_false_iff in Hdue.
    destruct Hdue as (_ & Hv). apply Z.eqb_neq in Hv. exact Hv.
Qed.

End Access.

Lemma write_then_read_witness :
  to_u8 LM77_REG_T_LOW <> LM77_REG_CONF
  /\ (forall (c : lm77_chip) w, 0 <= w < 65536 ->
        fst (xfer_read_word (snd (xfer_write_word c (to_u8 LM77_REG_T_LOW) w))
               (to_u8 LM77_REG_T_LOW)) = Some w)
  /\ fst (lm77_read_value LM77_REG_T_LOW
            (snd (lm77_write_value LM77_REG_T_LOW 160 (boot fresh_chip))))
     = to_u16 160
  /\ LM77_TEMP_FROM_REG
       (fst (lm77_read_value LM77_REG_T_LOW
               (snd (lm77_write_value LM77_REG_T_LOW
                       (LM77_TEMP_TO_REG (-10250)) (boot fresh_chip)))))
     = Z.quot (SENSORS_LIMIT (-10250) LM77_TEMP_MIN LM77_TEMP_MAX) 500 * 500.
Proof.
  assert (Hreg : to_u8 LM77_REG_T_LOW <> LM77_REG_CONF) by discriminate.
  assert (Hecho : forall (c : lm77_chip) w, 0 <= w < 65536 ->
             fst (xfer_read_word
                    (snd (xfer_write_word c (to_u8 LM77_REG_T_LOW) w))
                    (to_u8 LM77_REG_T_LOW)) = Some w).
  { intros c w Hw. cbn. f_equal. apply swab16_involutive. exact Hw. }
  split; [exact Hreg|]. split; [exact Hecho|].
  exact (write_then_read LM77_REG_T_LOW 160 (-10250) (boot fresh_chip)
           Hreg Hecho).
Defined.

(** ** The sysctl handlers *)

Section Handlers.
Context {chip : Type} `{SMBus chip} `{KernelConfig}.

(** X7: a request to [lm77_proc_temp] other than a write never writes to
    the chip and prints nothing; when the cache is fresh it issues no
    transfer at all, leaves the client data alone, and a read of the
    temperature endpoint returns the cached minimum, maximum and current
    temperature. *)
Theorem lm77_proc_temp_read_only (jiffies stack_slot : Z) (data : lm77_data)
    (operation ctl_name nrels_mag : Z) (results : list Z) (k : kernel chip) :
  operation <> SENSORS_PROC_REAL_WRITE ->
  let run := lm77_proc_temp jiffies stack_slot data operation ctl_name
               nrels_mag results k in
  filter is_write (trace (snd run)) = filter is_write (trace k)
  /\ dmesg (snd run) = dmesg k
  /\ (update_due jiffies data = false ->
      snd run = k
      /\ fst (fst (fst run)) = data
      /\ (operation = SENSORS_PROC_REAL_READ ->
          ctl_name = LM77_SYSCTL_TEMP ->
          snd (fst (fst run)) = 3
          /\ firstn 3 (snd (fst run))
             = [temp_min data; temp_max data; temp_input data])).
Proof.
  intros Hop run.
  assert (Hro : reads_only
                  (lm77_proc_temp jiffies stack_slot data operation ctl_name
                     nrels_mag results)).
  { unfold lm77_proc_temp.
    destruct (operation =? SENSORS_PROC_REAL_INFO); [apply reads_only_ret|].
    destruct (operation =? SENSORS_PROC_REAL_READ).
    - apply reads_only_bind; [apply reads_only_lm77_update_client|].
      intros d.
      repeat match goal with
             | |- reads_only (if ?b then _ else _) => destruct b
             end; apply reads_only_ret.
    - apply Z.eqb_neq in Hop. rewrite Hop. apply reads_only_ret. }
  destruct (Hro k) as (Hw & _ & Hd). fold run in Hw, Hd.
  split; [exact Hw|]. split; [exact Hd|].
  intros Hfresh. subst run. unfold lm77_proc_temp.
  apply Z.eqb_neq in Hop.
  destruct (operation =? SENSORS_PROC_REAL_INFO) eqn:Hinfo.
  { cbn. split; [reflexivity|]. split; [reflexivity|].
    intros ->. discriminate Hinfo. }
  destruct (operation =? SENSORS_PROC_REAL_READ) eqn:Hread.
  - unfold bind. rewrite (lm77_update_client_fresh jiffies data k Hfresh).
    assert (Hshape : forall l a b c,
               firstn 3 (array_set (array_set (array_set l 0 a) 1 b) 2 c)
               = [a; b; c]).
    { intros l a b c. destruct l as [|x [|y [|z l]]]; reflexivity. }
    destruct (ctl_name =? LM77_SYSCTL_TEMP) eqn:Hc.
    + cbn. split; [reflexivity|]. split; [reflexivity|].
      intros _ _. split; [reflexivity | apply Hshape].
    + apply Z.eqb_neq in Hc.
      destruct (ctl_name =? LM77_SYSCTL_TEMP_CRIT);
        [|destruct (ctl_name =? LM77_SYSCTL_TEMP_HYST)];
        cbn; (split; [reflexivity|]); (split; [reflexivity|]);
        intros _ Hctl; contradiction.
  - rewrite Hop. cbn. split; [reflexivity|]. split; [reflexivity|].
    intros ->. discriminate Hread.
Qed.

(** X8: [lm77_proc_alarms] never writes to the chip, whatever the
    operation.  A write request touches neither the bus nor the client
    data, reports no value and logs that alarms are read-only; a read
    request that re-reads the chip returns a value between 0 and 7. *)
Theorem lm77_proc_alarms_read_only (jiffies : Z) (data : lm77_data)
    (operation ctl_name nrels_mag : Z) (results : list Z) (k : kernel chip) :
  let run := lm77_proc_alarms jiffies data operation ctl_name nrels_mag
               results k in
  filter is_write (trace (snd run)) = filter is_write (trace k)
  /\ (operation = SENSORS_PROC_REAL_WRITE ->
      fst run = (data, 0, results)
      /\ hw (snd run) = hw k
      /\ trace (snd run) = trace k
      /\ dmesg (snd run) = dmesg k ++ ["lm77: alarms: read-only"%string])
  /\ (operation = SENSORS_PROC_REAL_READ ->
      update_due jiffies data = true ->
      snd (fst (fst run)) = 1
      /\ 0 <= nth 0 (snd (fst run)) 0 <= 7).
Proof.
  intros run. subst run. unfold lm77_proc_alarms.
  destruct (operation =? SENSORS_PROC_REAL_INFO) eqn:Hinfo.
  { cbn. apply Z.eqb_eq in Hinfo. subst operation.
    split; [reflexivity|]. split; intros Hop; discriminate Hop. }
  destruct (operation =? SENSORS_PROC_REAL_READ) eqn:Hread.
  - apply Z.eqb_eq in Hread. subst operation. unfold bind.
    pose proof (reads_only_lm77_update_client jiffies data k) as Hro.
    pose proof (refreshed_alarms_range jiffies data k) as Ha.
    destruct (lm77_update_client jiffies data k) as [d k1].
    cbn [fst snd] in Hro, Ha |- *. destruct Hro as (Hw & _).
    split; [exact Hw|]. split; [intros Hop; discriminate Hop|].
    intros _ Hdue. specialize (Ha Hdue).
    split; [reflexivity|].
    destruct results; cbn [array_set nth]; exact Ha.
  - destruct (operation =? SENSORS_PROC_REAL_WRITE) eqn:Hwrite.
    + cbn. split; [reflexivity|]. split.
      * intros _. split; [reflexivity|]. split; [reflexivity|].
        split; reflexivity.
      * intros ->. discriminate Hread.
    + cbn. split; [reflexivity|]. split; intros ->; discriminate.
Qed.

(** X9: [lm77_proc_reset] acts only on a write request whose first value
    is exactly 1.  It then sends, in this order and without reading
    anything, 0 to the configuration register and the default words to the
    low, high, critical and hysteresis registers, which decode to 10, 64,
    80 and 2 degrees; any other request issues no transfer and prints
    nothing.  Info and read requests report no value. *)
Theorem lm77_proc_reset_spec (operation ctl_name nrels_mag : Z)
    (results : list Z) (k : kernel chip) :
  let run := lm77_proc_reset operation ctl_name nrels_mag results k in
  let fires := operation = SENSORS_PROC_REAL_WRITE
               /\ 1 <= nrels_mag /\ nth 0 results 0 = 1 in
  (fires ->
   trace (snd run)
   = trace k ++ [WriteByte LM77_REG_CONF 0;
                 WriteWord LM77_REG_T_LOW (swab16 LM77_DEFAULT_T_LOW);
                 WriteWord LM77_REG_T_HIGH (swab16 LM77_DEFAULT_T_HIGH);
                 WriteWord LM77_REG_T_CRIT (swab16 LM77_DEFAULT_T_CRIT);
                 WriteWord LM77_REG_T_HYST (swab16 LM77_DEFAULT_T_HYST)]
   /\ dmesg (snd run) = dmesg k ++ [msg_reset]
   /\ map LM77_TEMP_FROM_REG
        [LM77_DEFAULT_T_LOW; LM77_DEFAULT_T_HIGH; LM77_DEFAULT_T_CRIT;
         LM77_DEFAULT_T_HYST]
      = [10000; 64000; 80000; 2000])
  /\ (~ fires -> snd run = k)
  /\ (operation = SENSORS_PROC_REAL_INFO \/ operation = SENSORS_PROC_REAL_READ
      -> fst run = 0).
Proof.
  intros run fires. subst run fires. unfold lm77_proc_reset.
  destruct (operation =? SENSORS_PROC_REAL_INFO) eqn:Hinfo.
  { apply Z.eqb_eq in Hinfo. subst operation. cbn.
    split; [intros (Hop & _); discriminate Hop|].
    split; reflexivity. }
  destruct (operation =? SENSORS_PROC_REAL_READ) eqn:Hread.
  { apply Z.eqb_eq in Hread. subst operation. cbn.
    split; [intros (Hop & _); discriminate Hop|].
    split; reflexivity. }
  apply Z.eqb_neq in Hinfo, Hread.
  assert (Hnone : operation = SENSORS_PROC_REAL_INFO
                  \/ operation = SENSORS_PROC_REAL_READ -> False)
    by (intros [Hop | Hop]; contradiction).
  destruct (operation =? SENSORS_PROC_REAL_WRITE) eqn:Hwrite.
  - apply Z.eqb_eq in Hwrite. unfold array_get.
    destruct ((nrels_mag >=? 1) && (nth 0 results 0 =? 1)) eqn:Hc.
    + split; [|split].
      * intros _. run_bus; rewrite <- !app_assoc;
          (split; [reflexivity|]); split; reflexivity.
      * intros Hn. exfalso. apply Hn.
        apply andb_true_iff in Hc. destruct Hc as (Hn1 & Hr).
        rewrite Z.geb_le in Hn1. apply Z.eqb_eq in Hr.
        split; [exact Hwrite|]. split; [lia | exact Hr].
      * intros Hop. exfalso. exact (Hnone Hop).
    + split; [|split].
      * intros (_ & Hn1 & Hr). exfalso.
        apply andb_false_iff in Hc. destruct Hc as [Hc | Hc].
        -- rewrite Z.geb_leb in Hc. apply Z.leb_gt in Hc. lia.
        -- apply Z.eqb_neq in Hc. contradiction.
      * intros _. reflexivity.
      * intros Hop. exfalso. exact (Hnone Hop).
  - cbn. split; [|split].
    + intros (Hop & _). subst operation. discriminate Hwrite.
    + intros _. reflexivity.
    + intros Hop. exfalso. exact (Hnone Hop).
Qed.

End Handlers.

Lemma lm77_proc_temp_read_only_witness :
  SENSORS_PROC_REAL_READ <> SENSORS_PROC_REAL_WRITE
  /\ update_due 1100 cached = false
  /\ snd (lm77_proc_temp 1100 1 cached SENSORS_PROC_REAL_READ
            LM77_SYSCTL_TEMP 0 [] (boot fresh_chip)) = boot fresh_chip
  /\ firstn 3 (snd (fst (lm77_proc_temp 1100 1 cached SENSORS_PROC_REAL_READ
                           LM77_SYSCTL_TEMP 0 [] (boot fresh_chip))))
     = [10000; 70000; 25000].
Proof.
  assert (Hop : SENSORS_PROC_REAL_READ <> SENSORS_PROC_REAL_WRITE)
    by discriminate.
  assert (Hfresh : update_due 1100 cached = false) by reflexivity.
  destruct (lm77_proc_temp_read_only 1100 1 cached SENSORS_PROC_REAL_READ
              LM77_SYSCTL_TEMP 0 [] (boot fresh_chip) Hop)
    as (_ & _ & Hrest).
  destruct (Hrest Hfresh) as (Hk & _ & Hread).
  destruct (Hread eq_refl eq_refl) as (_ & Hres).
  split; [exact Hop|]. split; [exact Hfresh|]. split; [exact Hk|].
  exact Hres.
Defined.

(** ** More on detection *)

Section DetectionOutcomes.
Context {chip : Type} `{SMBus chip}.

(** X10: every way [lm77_detect] can end.  It returns a client only with
    value 0, after [kmalloc], [i2c_attach_client] and [i2c_register_entry]
    and a single write, of 0 to the configuration register.  Otherwise it
    returns no client and has written nothing to the chip: either nothing
    was allocated (ISA adapter or missing functionality, value 0; failed
    [kmalloc], value [-ENOMEM], nothing touched), or the data was freed
    (rejected probe or unknown kind, value 0; failed attach, its error),
    or the client was detached and the data freed (failed registration,
    its negative value). *)
Theorem lm77_detect_outcomes (env : host) (address kind : Z)
    (k : kernel chip) :
  let run := lm77_detect env address kind k in
  let ret := fst (fst run) in
  let client := snd (fst run) in
  let new_calls l := calls (snd run) = calls k ++ l in
  let no_write :=
    filter is_write (trace (snd run)) = filter is_write (trace k) in
  (client = None /\ ret = 0 /\ new_calls [] /\ no_write)
  \/ (client = None /\ ret = - ENOMEM /\ snd run = k
      /\ kmalloc_succeeds env = false)
  \/ (client = None /\ ret = 0 /\ new_calls [Kmalloc; Kfree] /\ no_write)
  \/ (client = None /\ ret = i2c_attach_client env /\ ret <> 0
      /\ new_calls [Kmalloc; AttachClient; Kfree] /\ no_write)
  \/ (client = None /\ ret = i2c_register_entry env /\ ret < 0
      /\ new_calls [Kmalloc; AttachClient; RegisterEntry; DetachClient; Kfree]
      /\ no_write)
  \/ (client = Some (mk_lm77_data address (i2c_register_entry env)
                       0 0 0 0 0 0 0 0)
      /\ ret = 0
      /\ new_calls [Kmalloc; AttachClient; RegisterEntry]
      /\ filter is_write (trace (snd run))
         = filter is_write (trace k) ++ [WriteByte LM77_REG_CONF 0]).
Proof.
  intros run ret client new_calls no_write.
  subst ret client new_calls no_write run.
  destruct (lm77_detect env address kind k) as [[r o] k'] eqn:Hrun.
  cbn [fst snd]. revert Hrun. unfold lm77_detect.
  assert (Hprobe : reads_only (chip := chip)
                     (if kind <? 0 then remaining_detection else ret false)).
  { destruct (kind <? 0);
      [apply reads_only_remaining_detection | apply reads_only_ret]. }
  specialize (Hprobe (snd (core Kmalloc k))).
  destruct (i2c_is_isa_adapter env).
  { intros E. cbv [bind printk ret] in E. injection E as <- <- <-.
    left. cbn. rewrite app_nil_r. repeat split. }
  destruct (i2c_check_functionality env); cbn [negb].
  2:{ intros E. cbv [ret] in E. injection E as <- <- <-.
      left. rewrite app_nil_r. repeat split. }
  destruct (kmalloc_succeeds env) eqn:Hmem; cbn [negb].
  2:{ intros E. cbv [ret] in E. injection E as <- <- <-.
      right; left. repeat split. }
  unfold bind at 1 2. cbn [core snd] in Hprobe |- *.
  destruct ((if kind <? 0 then remaining_detection else ret false) _)
    as [bad k1].
  cbn [snd calls trace dmesg] in Hprobe. destruct Hprobe as (Hw & Hc & _).
  destruct bad.
  { intros E. cbv [bind core ret] in E. injection E as <- <- <-.
    right; right; left. cbn. rewrite Hw, Hc, <- app_assoc. repeat split. }
  destruct (negb ((if kind <=? 0 then lm77 else kind) =? lm77)).
  { intros E. cbv [bind core ret] in E. injection E as <- <- <-.
    right; right; left. cbn. rewrite Hw, Hc, <- app_assoc. repeat split. }
  unfold bind at 1. cbn [core].
  destruct (i2c_attach_client env =? 0) eqn:Hatt; cbn [negb].
  2:{ intros E. cbv [bind core ret] in E. injection E as <- <- <-.
      right; right; right; left. apply Z.eqb_neq in Hatt.
      cbn. rewrite Hw, Hc, <- !app_assoc.
      split; [reflexivity|]. split; [reflexivity|]. split; [exact Hatt|].
      split; reflexivity. }
  unfold bind at 1. cbn [core].
  destruct (i2c_register_entry env <? 0) eqn:Hreg.
  { intros E. cbv [bind core ret] in E. injection E as <- <- <-.
    right; right; right; right; left. apply Z.ltb_lt in Hreg.
    cbn. rewrite Hw, Hc, <- !app_assoc.
    split; [reflexivity|]. split; [reflexivity|]. split; [exact Hreg|].
    split; reflexivity. }
  unfold bind at 1.
  match goal with
  | |- context [lm77_init_client ?k2] =>
      destruct (lm77_init_client_run k2) as (Hinit & Hcalls);
      destruct (lm77_init_client k2) as [u2 k3]
  end.
  cbn [fst snd ret trace calls] in Hinit, Hcalls |- *.
  intros E. injection E as <- <- <-.
  right; right; right; right; right.
  rewrite Hinit, Hcalls, Hc, filter_app, Hw, <- !app_assoc.
  repeat split.
Qed.

(** X11: with a forced kind ([kind >= 0]) no identification takes place.
    On a host where allocation, attach and registration succeed, kind 0
    or [lm77] attaches a client to whatever is at the address, the only
    transfers being the read of the configuration register and the write
    of 0 to it; any other kind is refused with value 0 and no transfer. *)
Theorem lm77_detect_forced (env : host) (address kind : Z) (k : kernel chip) :
  i2c_is_isa_adapter env = false ->
  i2c_check_functionality env = true ->
  kmalloc_succeeds env = true ->
  i2c_attach_client env = 0 ->
  0 <= i2c_register_entry env ->
  0 <= kind ->
  let run := lm77_detect env address kind k in
  (kind <= lm77 ->
   fst run = (0, Some (mk_lm77_data address (i2c_register_entry env)
                         0 0 0 0 0 0 0 0))
   /\ trace (snd run)
      = trace k ++ [ReadByte LM77_REG_CONF; WriteByte LM77_REG_CONF 0])
  /\ (lm77 < kind ->
      fst run = (0, None)
      /\ trace (snd run) = trace k
      /\ calls (snd run) = calls k ++ [Kmalloc; Kfree]).
Proof.
  intros Hisa Hfun Hmem Hatt Hreg Hkind run. subst run.
  unfold lm77_detect. rewrite Hisa, Hfun, Hmem, Hatt. cbn [negb].
  assert (Hk : (kind <? 0) = false) by (apply Z.ltb_ge; lia).
  assert (Hr : (i2c_register_entry env <? 0) = false) by (apply Z.ltb_ge; lia).
  rewrite Hk, Hr. unfold lm77.
  split.
  - intros Hle.
    assert (Hkind' : ((if kind <=? 0 then 1 else kind) =? 1) = true).
    { destruct (kind <=? 0) eqn:E; [reflexivity|].
      apply Z.leb_gt in E. apply Z.eqb_eq. unfold lm77 in Hle. lia. }
    rewrite Hkind'. cbn [negb Z.eqb]. unfold bind, core, ret. cbn [snd].
    match goal with
    | |- context [lm77_init_client ?k2] =>
        destruct (lm77_init_client_run k2) as (Hinit & _);
        destruct (lm77_init_client k2) as [u2 k3]
    end.
    cbn [fst snd trace] in Hinit |- *. split; [reflexivity | exact Hinit].
  - intros Hgt.
    assert (Hkind' : ((if kind <=? 0 then 1 else kind) =? 1) = false).
    { destruct (kind <=? 0) eqn:E.
      - apply Z.leb_le in E. lia.
      - apply Z.eqb_neq. lia. }
    rewrite Hkind'. cbn. rewrite <- app_assoc. repeat split.
Qed.

End DetectionOutcomes.

Lemma lm77_detect_forced_witness :
  (0 <= 1 /\ 1 <= lm77)
  /\ fst (lm77_detect pc_host 72 1 (boot Dead))
     = (0, Some (mk_lm77_data 72 7 0 0 0 0 0 0 0 0))
  /\ trace (snd (lm77_detect pc_host 72 1 (boot Dead)))
     = [ReadByte LM77_REG_CONF; WriteByte LM77_REG_CONF 0].
Proof.
  assert (Hk : 0 <= 1 /\ 1 <= lm77) by (unfold lm77; lia).
  destruct (lm77_detect_forced pc_host 72 1 (boot Dead)
              eq_refl eq_refl eq_refl eq_refl ltac:(cbn; lia) (proj1 Hk))
    as (Hforced & _).
  split; [exact Hk | exact (Hforced (proj2 Hk))].
Defined.

(** ** Accepted setpoint writes *)

Lemma to_int_small (x : Z) : -2147483648 <= x < 2147483648 -> to_int x = x.
Proof. intros Hx. unfold to_int. rewrite Z.mod_small by lia. lia. Qed.

(** The word [lm77_write_value] sends for an encoded temperature decodes,
    after the byte swap of the read path, to the temperature clamped and
    truncated. *)
Lemma wire_word_decodes (temp : Z) :
  LM77_TEMP_FROM_REG
    (swab16 (to_u16 (swab16 (to_u16 (LM77_TEMP_TO_REG temp)))))
  = Z.quot (SENSORS_LIMIT temp LM77_TEMP_MIN LM77_TEMP_MAX) 500 * 500.
Proof.
  pose proof (LM77_TEMP_TO_REG_range temp) as Hr.
  unfold to_u16 at 2. rewrite (Z.mod_small _ _ Hr).
  unfold to_u16. rewrite Z.mod_small by apply swab16_range.
  rewrite swab16_involutive by exact Hr.
  apply decode_encode_limit.
Qed.

Section Commit.
Context {chip : Type} `{SMBus chip} `{KernelConfig}.

(** X12: an accepted write of both limits.  When the two values given to
    the temperature endpoint are within [-55000, 125000], the first below
    the second, and the fourth comparison passes, the cache takes the two
    values exactly as given and nothing else in it changes; exactly two
    words are sent, to the low then to the high register, and each decodes
    to the value given truncated to half a degree.  This holds whether or
    not the bus transfers succeed: their results are not looked at. *)
Theorem lm77_proc_temp_write_limits (jiffies stack_slot : Z)
    (data : lm77_data) (nrels_mag low high : Z) (rest : list Z)
    (k : kernel chip) :
  2 <= nrels_mag ->
  LM77_TEMP_MIN <= low <= LM77_TEMP_MAX ->
  LM77_TEMP_MIN <= high <= LM77_TEMP_MAX ->
  low < high ->
  to_int (low + stack_slot) < to_int (high - stack_slot) ->
  let run := lm77_proc_temp jiffies stack_slot data SENSORS_PROC_REAL_WRITE
               LM77_SYSCTL_TEMP nrels_mag (low :: high :: rest) k in
  fst (fst (fst run)) = set_temp_max high (set_temp_min low data)
  /\ dmesg (snd run) = dmesg k ++ [msg_applied]
  /\ exists w_low w_high,
      trace (snd run)
      = trace k ++ [WriteWord LM77_REG_T_LOW w_low;
                    WriteWord LM77_REG_T_HIGH w_high]
      /\ LM77_TEMP_FROM_REG (swab16 w_low) = Z.quot low 500 * 500
      /\ LM77_TEMP_FROM_REG (swab16 w_high) = Z.quot high 500 * 500.
Proof.
  intros Hn Hlow Hhigh Hlt Hmargin run. subst run.
  unfold LM77_TEMP_MIN, LM77_TEMP_MAX in Hlow, Hhigh.
  assert (Hnew : user_values LM77_SYSCTL_TEMP nrels_mag (low :: high :: rest)
                 = [low; high; LM77_SC_NOTSET; LM77_SC_NOTSET]).
  { unfold user_values. cbn [Z.eqb LM77_SYSCTL_TEMP Pos.eqb].
    assert (H1 : (nrels_mag >=? 1) = true) by (apply Z.geb_le; lia).
    assert (H2 : (nrels_mag >=? 2) = true) by (apply Z.geb_le; lia).
    rewrite H1, H2. unfold array_get. cbn [nth array_set].
    rewrite !to_int_small by lia. reflexivity. }
  assert (Hl : (low =? LM77_SC_NOTSET) = false)
    by (apply Z.eqb_neq; unfold LM77_SC_NOTSET; lia).
  assert (Hh : (high =? LM77_SC_NOTSET) = false)
    by (apply Z.eqb_neq; unfold LM77_SC_NOTSET; lia).
  destruct (lm77_proc_temp jiffies stack_slot data SENSORS_PROC_REAL_WRITE
              LM77_SYSCTL_TEMP nrels_mag (low :: high :: rest) k)
    as [[[d n'] r'] k'] eqn:Hrun.
  cbn [fst snd]. revert Hrun. unfold lm77_proc_temp.
  change (SENSORS_PROC_REAL_WRITE =? SENSORS_PROC_REAL_INFO) with false.
  change (SENSORS_PROC_REAL_WRITE =? SENSORS_PROC_REAL_READ) with false.
  change (SENSORS_PROC_REAL_WRITE =? SENSORS_PROC_REAL_WRITE) with true.
  cbv iota. rewrite Hnew.
  unfold populate_check, array_get. cbn [nth]. rewrite Hl, Hh.
  change (LM77_SC_NOTSET =? LM77_SC_NOTSET) with true. cbv iota.
  unfold bind at 1. rewrite sanity_checks_run.
  assert (Hb1 : (low <? LM77_TEMP_MIN) || (low >? LM77_TEMP_MAX) = false).
  { rewrite orb_false_iff, Z.ltb_ge, Z.gtb_ltb, Z.ltb_ge.
    unfold LM77_TEMP_MIN, LM77_TEMP_MAX. lia. }
  assert (Hb2 : (high <? LM77_TEMP_MIN) || (high >? LM77_TEMP_MAX) = false).
  { rewrite orb_false_iff, Z.ltb_ge, Z.gtb_ltb, Z.ltb_ge.
    unfold LM77_TEMP_MIN, LM77_TEMP_MAX. lia. }
  assert (Hb3 : (low >=? high) = false)
    by (rewrite Z.geb_leb; apply Z.leb_gt; lia).
  assert (Hb4 : (to_int (low + stack_slot) >=? to_int (high - stack_slot))
                = false)
    by (rewrite Z.geb_leb; apply Z.leb_gt; lia).
  rewrite Hb1, Hb2, Hb3, Hb4. cbn [orb negb Z.eqb app].
  rewrite app_nil_r.
  unfold apply_changes, array_get. cbn [nth]. rewrite Hl, Hh.
  change (LM77_SC_NOTSET =? LM77_SC_NOTSET) with true. cbn [negb].
  unfold lm77_write_value.
  change (to_u8 LM77_REG_T_LOW =? LM77_REG_CONF) with false.
  change (to_u8 LM77_REG_T_HIGH =? LM77_REG_CONF) with false.
  cbv iota. unfold bind, ret, printk, i2c_smbus_write_word_data.
  cbn [hw trace calls dmesg fst snd].
  repeat match goal with
         | |- context [xfer_write_word ?c ?r ?v] =>
             destruct (xfer_write_word c r v) as [? ?];
             cbn [hw trace calls dmesg fst snd]
         end.
  intros E. injection E as <- <- <- <-. cbn [trace dmesg].
  split; [reflexivity|]. split; [reflexivity|].
  eexists _, _. rewrite <- app_assoc. split; [reflexivity|].
  rewrite !wire_word_decodes.
  rewrite !SENSORS_LIMIT_in_range
    by (unfold LM77_TEMP_MIN, LM77_TEMP_MAX; lia).
  split; reflexivity.
Qed.

(** X13: the critical setpoint is not range-checked.  A value given to
    the critical endpoint is accepted whenever the cached limits pass the
    four comparisons, whatever the value is: the cache takes it as given,
    and the one word sent, to the critical register, decodes to the value
    clamped to [-55000, 125000] and truncated to half a degree. *)
Theorem lm77_proc_temp_write_crit (jiffies stack_slot : Z)
    (data : lm77_data) (nrels_mag crit : Z) (rest : list Z)
    (k : kernel chip) :
  1 <= nrels_mag ->
  -2147483648 <= crit < 2147483648 ->
  crit <> LM77_SC_NOTSET ->
  LM77_TEMP_MIN <= temp_min data <= LM77_TEMP_MAX ->
  LM77_TEMP_MIN <= temp_max data <= LM77_TEMP_MAX ->
  temp_min data < temp_max data ->
  to_int (temp_min data + stack_slot) < to_int (temp_max data - stack_slot) ->
  let run := lm77_proc_temp jiffies stack_slot data SENSORS_PROC_REAL_WRITE
               LM77_SYSCTL_TEMP_CRIT nrels_mag (crit :: rest) k in
  fst (fst (fst run)) = set_temp_crit crit data
  /\ dmesg (snd run) = dmesg k ++ [msg_applied]
  /\ exists w,
      trace (snd run) = trace k ++ [WriteWord LM77_REG_T_CRIT w]
      /\ LM77_TEMP_FROM_REG (swab16 w)
         = Z.quot (SENSORS_LIMIT crit LM77_TEMP_MIN LM77_TEMP_MAX) 500 * 500.
Proof.
  intros Hn Hint Hset Hlow Hhigh Hlt Hmargin run. subst run.
  assert (Hnew : user_values LM77_SYSCTL_TEMP_CRIT nrels_mag (crit :: rest)
                 = [LM77_SC_NOTSET; LM77_SC_NOTSET; crit; LM77_SC_NOTSET]).
  { unfold user_values.
    change (LM77_SYSCTL_TEMP_CRIT =? LM77_SYSCTL_TEMP) with false.
    change (LM77_SYSCTL_TEMP_CRIT =? LM77_SYSCTL_TEMP_CRIT) with true.
    cbv iota.
    assert (H1 : (nrels_mag >=? 1) = true) by (apply Z.geb_le; lia).
    rewrite H1. unfold array_get. cbn [nth array_set].
    rewrite to_int_small by lia. reflexivity. }
  assert (Hc : (crit =? LM77_SC_NOTSET) = false) by (apply Z.eqb_neq; exact Hset).
  destruct (lm77_proc_temp jiffies stack_slot data SENSORS_PROC_REAL_WRITE
              LM77_SYSCTL_TEMP_CRIT nrels_mag (crit :: rest) k)
    as [[[d n'] r'] k'] eqn:Hrun.
  cbn [fst snd]. revert Hrun. unfold lm77_proc_temp.
  change (SENSORS_PROC_REAL_WRITE =? SENSORS_PROC_REAL_INFO) with false.
  change (SENSORS_PROC_REAL_WRITE =? SENSORS_PROC_REAL_READ) with false.
  change (SENSORS_PROC_REAL_WRITE =? SENSORS_PROC_REAL_WRITE) with true.
  cbv iota. rewrite Hnew.
  unfold populate_check, array_get. cbn [nth]. rewrite Hc.
  change (LM77_SC_NOTSET =? LM77_SC_NOTSET) with true. cbv iota.
  unfold bind at 1. rewrite sanity_checks_run.
  assert (Hb1 : (temp_min data <? LM77_TEMP_MIN)
                || (temp_min data >? LM77_TEMP_MAX) = false).
  { rewrite orb_false_iff, Z.ltb_ge, Z.gtb_ltb, Z.ltb_ge. lia. }
  assert (Hb2 : (temp_max data <? LM77_TEMP_MIN)
                || (temp_max data >? LM77_TEMP_MAX) = false).
  { rewrite orb_false_iff, Z.ltb_ge, Z.gtb_ltb, Z.ltb_ge. lia. }
  assert (Hb3 : (temp_min data >=? temp_max data) = false)
    by (rewrite Z.geb_leb; apply Z.leb_gt; lia).
  assert (Hb4 : (to_int (temp_min data + stack_slot)
                 >=? to_int (temp_max data - stack_slot)) = false)
    by (rewrite Z.geb_leb; apply Z.leb_gt; lia).
  rewrite Hb1, Hb2, Hb3, Hb4. cbn [orb negb Z.eqb app].
  rewrite app_nil_r.
  unfold apply_changes, array_get. cbn [nth]. rewrite Hc.
  change (LM77_SC_NOTSET =? LM77_SC_NOTSET) with true. cbn [negb].
  unfold lm77_write_value.
  change (to_u8 LM77_REG_T_CRIT =? LM77_REG_CONF) with false.
  cbv iota. unfold bind, ret, printk, i2c_smbus_write_word_data.
  cbn [hw trace calls dmesg fst snd].
  repeat match goal with
         | |- context [xfer_write_word ?c ?r ?v] =>
             destruct (xfer_write_word c r v) as [? ?];
             cbn [hw trace calls dmesg fst snd]
         end.
  intros E. injection E as <- <- <- <-. cbn [trace dmesg].
  split; [reflexivity|]. split; [reflexivity|].
  eexists. split; [reflexivity|]. apply wire_word_decodes.
Qed.

(** A write in which no value is taken issues no transfer and leaves the
    client data alone. *)
Lemma lm77_proc_temp_write_nothing (jiffies stack_slot : Z)
    (data : lm77_data) (ctl_name nrels_mag : Z) (results : list Z)
    (k : kernel chip) :
  user_values ctl_name nrels_mag results
  = [LM77_SC_NOTSET; LM77_SC_NOTSET; LM77_SC_NOTSET; LM77_SC_NOTSET] ->
  let run := lm77_proc_temp jiffies stack_slot data SENSORS_PROC_REAL_WRITE
               ctl_name nrels_mag results k in
  fst (fst (fst run)) = data
  /\ hw (snd run) = hw k
  /\ trace (snd run) = trace k.
Proof.
  intros Hnew run. subst run.
  destruct (lm77_proc_temp jiffies stack_slot data SENSORS_PROC_REAL_WRITE
              ctl_name nrels_mag results k)
    as [[[d n'] r'] k'] eqn:Hrun.
  cbn [fst snd]. revert Hrun. unfold lm77_proc_temp.
  change (SENSORS_PROC_REAL_WRITE =? SENSORS_PROC_REAL_INFO) with false.
  change (SENSORS_PROC_REAL_WRITE =? SENSORS_PROC_REAL_READ) with false.
  change (SENSORS_PROC_REAL_WRITE =? SENSORS_PROC_REAL_WRITE) with true.
  cbv iota. rewrite Hnew.
  change (populate_check data
            [LM77_SC_NOTSET; LM77_SC_NOTSET; LM77_SC_NOTSET; LM77_SC_NOTSET])
    with [temp_min data; temp_max data; temp_crit data; temp_hyst data].
  unfold bind at 1. rewrite sanity_checks_run.
  match goal with
  | |- context [if ?b then 0 else 1] => destruct b
  end.
  - cbn. intros E. injection E as <- <- <- <-. repeat split.
  - cbn [negb Z.eqb]. unfold bind. rewrite apply_changes_nothing.
    cbn. intros E. injection E as <- <- <- <-. repeat split.
Qed.

(** X14: -99999 is the driver's mark for a value not given, so a value of
    -99999 written to any endpoint is ignored: when the values in the
    positions the endpoint reads are all -99999, the request issues no
    transfer and leaves the cache unchanged, whatever [nrels_mag] says. *)
Theorem lm77_proc_temp_sentinel_ignored (jiffies stack_slot : Z)
    (data : lm77_data) (ctl_name nrels_mag : Z) (results : list Z)
    (k : kernel chip) :
  to_int (nth 0 results 0) = LM77_SC_NOTSET ->
  to_int (nth 1 results 0) = LM77_SC_NOTSET ->
  let run := lm77_proc_temp jiffies stack_slot data SENSORS_PROC_REAL_WRITE
               ctl_name nrels_mag results k in
  fst (fst (fst run)) = data
  /\ hw (snd run) = hw k
  /\ trace (snd run) = trace k.
Proof.
  intros H0' H1'. apply lm77_proc_temp_write_nothing.
  unfold user_values, array_get. rewrite H0', H1'.
  repeat match goal with
         | |- context [if ?b then _ else _] => destruct b
         end; reflexivity.
Qed.

End Commit.

Lemma lm77_proc_temp_write_limits_witness :
  (2 <= 2 /\ 10250 < 70000 /\ to_int (10250 + 1) < to_int (70000 - 1))
  /\ fst (fst (fst (lm77_proc_temp 1100 1 cached SENSORS_PROC_REAL_WRITE
                      LM77_SYSCTL_TEMP 2 [10250; 70000] (boot Dead))))
     = set_temp_max 70000 (set_temp_min 10250 cached)
  /\ dmesg (snd (lm77_proc_temp 1100 1 cached SENSORS_PROC_REAL_WRITE
                   LM77_SYSCTL_TEMP 2 [10250; 70000] (boot Dead)))
     = [msg_applied].
Proof.
  assert (Hh : 2 <= 2 /\ 10250 < 70000
               /\ to_int (10250 + 1) < to_int (70000 - 1))
    by (cbv [to_int]; cbn; lia).
  destruct Hh as (Hn & Hlt & Hm).
  destruct (lm77_proc_temp_write_limits 1100 1 cached 2 10250 70000 []
              (boot Dead) Hn
              ltac:(unfold LM77_TEMP_MIN, LM77_TEMP_MAX; lia)
              ltac:(unfold LM77_TEMP_MIN, LM77_TEMP_MAX; lia) Hlt Hm)
    as (Hdata & Hmsg & _).
  split; [exact (conj Hn (conj Hlt Hm))|]. split; [exact Hdata | exact Hmsg].
Defined.

Lemma lm77_proc_temp_write_crit_witness :
  (999999 <> LM77_SC_NOTSET /\ temp_min cached < temp_max cached)
  /\ temp_crit (fst (fst (fst (lm77_proc_temp 1100 1 cached
                                 SENSORS_PROC_REAL_WRITE LM77_SYSCTL_TEMP_CRIT
                                 1 [999999] (boot fresh_chip))))) = 999999
  /\ exists w,
      trace (snd (lm77_proc_temp 1100 1 cached SENSORS_PROC_REAL_WRITE
                    LM77_SYSCTL_TEMP_CRIT 1 [999999] (boot fresh_chip)))
      = [WriteWord LM77_REG_T_CRIT w]
      /\ LM77_TEMP_FROM_REG (swab16 w) = 125000.
Proof.
  assert (Hset : 999999 <> LM77_SC_NOTSET) by discriminate.
  assert (Hlt : temp_min cached < temp_max cached) by (cbn; lia).
  destruct (lm77_proc_temp_write_crit 1100 1 cached 1 999999 []
              (boot fresh_chip) ltac:(lia) ltac:(lia) Hset
              ltac:(cbn; unfold LM77_TEMP_MIN, LM77_TEMP_MAX; lia)
              ltac:(cbn; unfold LM77_TEMP_MIN, LM77_TEMP_MAX; lia) Hlt
              ltac:(cbv [to_int]; cbn; lia))
    as (Hdata & _ & w & Htrace & Hdec).
  split; [exact (conj Hset Hlt)|]. split.
  - rewrite Hdata. reflexivity.
  - exists w. split; [exact Htrace | exact Hdec].
Defined.

Lemma lm77_proc_temp_sentinel_ignored_witness :
  (to_int (nth 0 [-99999; -99999] 0) = LM77_SC_NOTSET
   /\ to_int (nth 1 [-99999; -99999] 0) = LM77_SC_NOTSET)
  /\ fst (fst (fst (lm77_proc_temp 1100 1 cached SENSORS_PROC_REAL_WRITE
                      LM77_SYSCTL_TEMP 2 [-99999; -99999] (boot fresh_chip))))
     = cached
  /\ trace (snd (lm77_proc_temp 1100 1 cached SENSORS_PROC_REAL_WRITE
                   LM77_SYSCTL_TEMP 2 [-99999; -99999] (boot fresh_chip)))
     = [].
Proof.
  assert (H0 : to_int (nth 0 [-99999; -99999] 0) = LM77_SC_NOTSET)
    by reflexivity.
  assert (H1 : to_int (nth 1 [-99999; -99999] 0) = LM77_SC_NOTSET)
    by reflexivity.
  destruct (lm77_proc_temp_sentinel_ignored 1100 1 cached LM77_SYSCTL_TEMP 2
              [-99999; -99999] (boot fresh_chip) H0 H1)
    as (Hdata & _ & Htrace).
  split; [exact (conj H0 H1)|]. split; [exact Hdata | exact Htrace].
Defined.

(** ** An accepted probe *)

Section Accepted.
Context {chip : Type} `{SMBus chip}.









(** X16: the sign test of the probe, made on the word as the bus returns
    it (low byte first), looks at the four top bits of the register value:
    it fails exactly when they are neither all set nor all clear.  A failed
    read (-1) passes it. *)
Theorem probe_sign_test (raw : Z) :
  -1 <= raw < 65536 ->
  (sign_bits_bad raw = true
   <-> Z.shiftr (swab16 raw) 12 <> 15 /\ Z.shiftr (swab16 raw) 12 <> 0)
  /\ sign_bits_bad (-1) = false.
Proof.
  intros Hraw. split; [|reflexivity].
  exact (sign_bits_bad_spec raw Hraw).
Qed.

End Accepted.

Lemma probe_sign_test_witness :
  -1 <= 53 < 65536
  /\ (sign_bits_bad 53 = true
      <-> Z.shiftr (swab16 53) 12 <> 15 /\ Z.shiftr (swab16 53) 12 <> 0).
Proof.
  assert (Hr : -1 <= 53 < 65536) by lia.
  split; [exact Hr | exact (proj1 (probe_sign_test 53 Hr))].
Defined.

(** ** Validation against the margin check of the specification *)

Section Margin.
Context {chip : Type} `{SMBus chip} `{KernelConfig}.


(** C5, on the code: a candidate that fails the margin check of the
    specification is written.  With limits 0 and 1000 cached, a hysteresis
    of 600 given to the hysteresis endpoint has 0 + 600 >= 1000 - 600; yet
    for every content below 500 of the word past the end of [check] (1, or
    the -99999 of a [new[0]] not given) the four comparisons of
    [sanity_checks] pass, "changes applied" is printed and the hysteresis
    register is written. *)
Theorem C5_margin_violation_is_written (jiffies stack_slot : Z)
    (k : kernel chip) :
  -1000000 <= stack_slot < 500 ->
  let data := mk_lm77_data 72 7 1 1000 25000 90000 0 1000 0 0 in
  let run := lm77_proc_temp jiffies stack_slot data SENSORS_PROC_REAL_WRITE
               LM77_SYSCTL_TEMP_HYST 1 [600] k in
  populate_check data (user_values LM77_SYSCTL_TEMP_HYST 1 [600])
  = [0; 1000; 90000; 600]
  /\ spec_margin_violated 0 1000 600 = true
  /\ dmesg (snd run) = dmesg k ++ [msg_applied]
  /\ trace (snd run) = trace k ++ [WriteWord LM77_REG_T_HYST 2048].
Proof.
  intros Hslot data run.
  split; [reflexivity|]. split; [reflexivity|].
  subst run.
  destruct (lm77_proc_temp jiffies stack_slot data SENSORS_PROC_REAL_WRITE
              LM77_SYSCTL_TEMP_HYST 1 [600] k)
    as [[[d n'] r'] k'] eqn:Hrun.
  cbn [fst snd]. revert Hrun. unfold lm77_proc_temp.
  change (SENSORS_PROC_REAL_WRITE =? SENSORS_PROC_REAL_INFO) with false.
  change (SENSORS_PROC_REAL_WRITE =? SENSORS_PROC_REAL_READ) with false.
  change (SENSORS_PROC_REAL_WRITE =? SENSORS_PROC_REAL_WRITE) with true.
  cbv iota.
  change (user_values LM77_SYSCTL_TEMP_HYST 1 [600])
    with [LM77_SC_NOTSET; LM77_SC_NOTSET; LM77_SC_NOTSET; 600].
  change (populate_check data
            [LM77_SC_NOTSET; LM77_SC_NOTSET; LM77_SC_NOTSET; 600])
    with [0; 1000; 90000; 600].
  unfold bind at 1. rewrite sanity_checks_run.
  change ((0 <? LM77_TEMP_MIN) || (0 >? LM77_TEMP_MAX)) with false.
  change ((1000 <? LM77_TEMP_MIN) || (1000 >? LM77_TEMP_MAX)) with false.
  change (0 >=? 1000) with false.
  assert (Hb4 : (to_int (0 + stack_slot) >=? to_int (1000 - stack_slot))
                = false).
  { rewrite !to_int_small by lia. rewrite Z.geb_leb. apply Z.leb_gt. lia. }
  rewrite Hb4. cbn [orb negb Z.eqb app]. rewrite app_nil_r.
  unfold apply_changes, array_get. cbn [nth].
  change (LM77_SC_NOTSET =? LM77_SC_NOTSET) with true.
  change (600 =? LM77_SC_NOTSET) with false. cbn [negb].
  unfold lm77_write_value.
  change (to_u8 LM77_REG_T_HYST =? LM77_REG_CONF) with false.
  cbv iota. unfold bind, ret, printk, i2c_smbus_write_word_data.
  cbn [hw trace calls dmesg fst snd].
  change (to_u16 (swab16 (to_u16 (LM77_TEMP_TO_REG 600)))) with 2048.
  change (to_u8 LM77_REG_T_HYST) with LM77_REG_T_HYST.
  destruct (xfer_write_word (hw k) LM77_REG_T_HYST 2048) as [ok c].
  cbn [hw trace calls dmesg fst snd].
  intros E. injection E as <- <- <- <-. cbn [trace dmesg].
  split; reflexivity.
Qed.


End Margin.

Lemma C5_margin_violation_is_written_witness :
  -1000000 <= -99999 < 500
  /\ spec_margin_violated 0 1000 600 = true
  /\ dmesg (snd (lm77_proc_temp 1100 (-99999)
                   (mk_lm77_data 72 7 1 1000 25000 90000 0 1000 0 0)
                   SENSORS_PROC_REAL_WRITE LM77_SYSCTL_TEMP_HYST 1 [600]
                   (boot fresh_chip)))
     = [msg_applied]
  /\ trace (snd (lm77_proc_temp 1100 (-99999)
                   (mk_lm77_data 72 7 1 1000 25000 90000 0 1000 0 0)
                   SENSORS_PROC_REAL_WRITE LM77_SYSCTL_TEMP_HYST 1 [600]
                   (boot fresh_chip)))
     = [WriteWord LM77_REG_T_HYST 2048].
Proof.
  assert (Hslot : -1000000 <= -99999 < 500) by lia.
  destruct (C5_margin_violation_is_written 1100 (-99999) (boot fresh_chip)
              Hslot) as (_ & Hspec & Hmsg & Htrace).
  split; [exact Hslot|]. split; [exact Hspec|].
  split; [exact Hmsg | exact Htrace].
Defined.
